(** * pgbackup: the backup-lifecycle engine of [pgbackup/backup.py]

    A shallow embedding of the filename codec, the promotion decision and
    the expiration sweep, together with the parts of the Python library
    they rest on ([str.split], [str.join], [os.path], [strftime],
    [strptime], [date.isocalendar], [sorted], [os.link], [os.unlink]).

    Strings are Rocq strings (sequences of 8-bit characters, compared by
    character code as Python compares [str] values); integers are [Z];
    dicts are [gmap]s; exceptions are values of the type [exn]. *)

From Stdlib Require Import ZArith Lia Bool Ascii.
From stdpp Require Import base decidable option list sorting strings gmap.

Local Open Scope Z_scope.

(** ** Python strings *)

Module Str.

Definition dot : ascii := "."%char.
Definition slash : ascii := "/"%char.

(** [c in s] for a one-character needle. *)
Fixpoint contains (c : ascii) (s : string) : bool :=
  match s with
  | EmptyString => false
  | String a s' => if Ascii.eqb a c then true else contains c s'
  end.

(** [s.count(c)] for a one-character needle. *)
Fixpoint count (c : ascii) (s : string) : nat :=
  match s with
  | EmptyString => O
  | String a s' => if Ascii.eqb a c then S (count c s') else count c s'
  end.

(** [s.split(c)]: never empty, [''.split('.') == ['']]. *)
Fixpoint split (c : ascii) (s : string) : list string :=
  match s with
  | EmptyString => [EmptyString]
  | String a s' =>
      if Ascii.eqb a c then EmptyString :: split c s'
      else match split c s' with
           | h :: t => String a h :: t
           | [] => [String a EmptyString]
           end
  end.

(** [sep.join(l)]. *)
Fixpoint join (sep : string) (l : list string) : string :=
  match l with
  | [] => EmptyString
  | x :: rest =>
      match rest with
      | [] => x
      | _ :: _ => x +:+ sep +:+ join sep rest
      end
  end.

(** [s.partition(c)[0]]: the part before the first [c], all of [s] when
    there is none. *)
Fixpoint partition_head (c : ascii) (s : string) : string :=
  match s with
  | EmptyString => EmptyString
  | String a s' =>
      if Ascii.eqb a c then EmptyString else String a (partition_head c s')
  end.

(** [s.rstrip(c)]. *)
Fixpoint rstrip (c : ascii) (s : string) : string :=
  match s with
  | EmptyString => EmptyString
  | String a s' =>
      match rstrip c s' with
      | EmptyString => if Ascii.eqb a c then EmptyString
                       else String a EmptyString
      | r => String a r
      end
  end.

(** [s == c * len(s)]. *)
Fixpoint all_char (c : ascii) (s : string) : bool :=
  match s with
  | EmptyString => true
  | String a s' => Ascii.eqb a c && all_char c s'
  end.

Definition startswith (c : ascii) (s : string) : bool :=
  match s with
  | String a _ => Ascii.eqb a c
  | EmptyString => false
  end.

Fixpoint endswith (c : ascii) (s : string) : bool :=
  match s with
  | EmptyString => false
  | String a EmptyString => Ascii.eqb a c
  | String _ s' => endswith c s'
  end.

(** Truth value of a string: [bool(s)]. *)
Definition truthy (s : string) : bool :=
  match s with EmptyString => false | _ => true end.

(** Python's [s1 <= s2] on strings: by character code, a proper prefix
    first. *)
Definition le (s1 s2 : string) : Prop := String.leb s1 s2 = true.
Definition lt (s1 s2 : string) : Prop := String.ltb s1 s2 = true.

End Str.

#[global] Instance str_le_dec : RelDecision Str.le.
Proof. intros s1 s2. unfold Str.le. apply _. Defined.

(** ** [os.path] on a POSIX system *)

Module OsPath.

(** [os.path.join(a, b)]. *)
Definition join (a b : string) : string :=
  if Str.startswith Str.slash b then b
  else if negb (Str.truthy a) || Str.endswith Str.slash a then a +:+ b
  else a +:+ String Str.slash b.

(** [(p[:i], p[i:])] for [i = p.rfind('/') + 1]. *)
Fixpoint cut (p : string) : string * string :=
  match p with
  | EmptyString => (EmptyString, EmptyString)
  | String a p' =>
      let '(h, t) := cut p' in
      match h with
      | EmptyString =>
          if Ascii.eqb a Str.slash then (String a EmptyString, t)
          else (EmptyString, String a t)
      | _ => (String a h, t)
      end
  end.

(** [os.path.split(p)]: the head loses its trailing slashes unless it
    consists of slashes only. *)
Definition split (p : string) : string * string :=
  let '(head, tail) := cut p in
  if Str.truthy head && negb (Str.all_char Str.slash head)
  then (Str.rstrip Str.slash head, tail)
  else (head, tail).

End OsPath.

Example split_seven :
  Str.split Str.dot "localhost.5432.adb.aschema.2016-12-04.daily.pg_dump_Fc"
  = ["localhost"; "5432"; "adb"; "aschema"; "2016-12-04"; "daily"; "pg_dump_Fc"].
Proof. reflexivity. Qed.

Example ospath_split_ex :
  OsPath.split "/var/backups//h.5432.db.s.2016-01-04.daily.pg_dump_Fc"
  = ("/var/backups", "h.5432.db.s.2016-01-04.daily.pg_dump_Fc").
Proof. reflexivity. Qed.

Example ospath_join_ex :
  OsPath.join "/var/backups" "x" = "/var/backups/x"
  /\ OsPath.join "/var/backups/" "x" = "/var/backups/x"
  /\ OsPath.join "/var/backups" "/x" = "/x".
Proof. repeat split; reflexivity. Qed.

(** ** [datetime.date] *)

Module Date.

(** A [datetime.date]; Python only builds values that satisfy [valid]. *)
Record date := mk { year : Z; month : Z; day : Z }.

Definition is_leap (y : Z) : bool :=
  (y mod 4 =? 0) && (negb (y mod 100 =? 0) || (y mod 400 =? 0)).

Definition days_in_month (y m : Z) : Z :=
  if m =? 2 then (if is_leap y then 29 else 28)
  else if (m =? 4) || (m =? 6) || (m =? 9) || (m =? 11) then 30
  else 31.

(** [_DAYS_BEFORE_MONTH] plus the leap day. *)
Definition days_before_month (y m : Z) : Z :=
  (match m with
   | 1 => 0 | 2 => 31 | 3 => 59 | 4 => 90 | 5 => 120 | 6 => 151
   | 7 => 181 | 8 => 212 | 9 => 243 | 10 => 273 | 11 => 304 | _ => 334
   end) + (if (2 <? m) && is_leap y then 1 else 0).

Definition days_before_year (y : Z) : Z :=
  let p := y - 1 in p * 365 + p / 4 - p / 100 + p / 400.

Definition ymd2ord (y m d : Z) : Z :=
  days_before_year y + days_before_month y m + d.

Definition toordinal (d : date) : Z := ymd2ord (year d) (month d) (day d).

Definition valid (d : date) : bool :=
  (1 <=? year d) && (year d <=? 9999) &&
  (1 <=? month d) && (month d <=? 12) &&
  (1 <=? day d) && (day d <=? days_in_month (year d) (month d)).

(** [_isoweek1monday]: ordinal of the Monday that starts ISO week 1. *)
Definition isoweek1monday (y : Z) : Z :=
  let firstday := ymd2ord y 1 1 in
  let firstweekday := (firstday + 6) mod 7 in
  let week1monday := firstday - firstweekday in
  if 3 <? firstweekday then week1monday + 7 else week1monday.

(** [date.isocalendar()]: (ISO year, ISO week, ISO weekday). *)
Definition isocalendar (d : date) : Z * Z * Z :=
  let y := year d in
  let today := toordinal d in
  let week1monday := isoweek1monday y in
  let week := (today - week1monday) / 7 in
  let wday := (today - week1monday) mod 7 in
  if week <? 0 then
    let y' := y - 1 in
    let w1 := isoweek1monday y' in
    (y', (today - w1) / 7 + 1, (today - w1) mod 7 + 1)
  else if (52 <=? week) && (isoweek1monday (y + 1) <=? today) then
    (y + 1, 1, wday + 1)
  else (y, week + 1, wday + 1).

(** Python orders dates as the tuples (year, month, day). *)
Definition compare (a b : date) : comparison :=
  match year a ?= year b with
  | Eq => match month a ?= month b with
          | Eq => day a ?= day b
          | c => c
          end
  | c => c
  end.

Definition digit_char (n : Z) : ascii :=
  match n with
  | 0 => "0" | 1 => "1" | 2 => "2" | 3 => "3" | 4 => "4"
  | 5 => "5" | 6 => "6" | 7 => "7" | 8 => "8" | _ => "9"
  end%char.

(** The value of a decimal digit: [ord(c) - ord('0')]. *)
Definition digit_val (c : ascii) : option Z :=
  let code := Z.of_N (N_of_ascii c) in
  if (48 <=? code) && (code <=? 57) then Some (code - 48) else None.

Definition pad2 (n : Z) : string :=
  String (digit_char (n / 10 mod 10)) (String (digit_char (n mod 10)) "").

Definition pad4 (n : Z) : string :=
  String (digit_char (n / 1000 mod 10))
    (String (digit_char (n / 100 mod 10)) (pad2 n)).

(** [%Y] as the C library writes it on Linux: the decimal digits of the
    year, without padding (['987'] for the year 987). *)
Definition year_digits (y : Z) : string :=
  if y <? 10 then String (digit_char (y mod 10)) ""
  else if y <? 100 then pad2 y
  else if y <? 1000 then String (digit_char (y / 100 mod 10)) (pad2 y)
  else pad4 y.

(** [d.strftime('%Y-%m-%d')]: month and day are zero-padded, the year is
    not. *)
Definition strftime (d : date) : string :=
  year_digits (year d) +:+ "-" +:+ pad2 (month d) +:+ "-" +:+ pad2 (day d).

(** The regular expression [_strptime] compiles ['%Y-%m-%d'] to is
    [(\d\d\d\d)-(1[0-2]|0[1-9]|[1-9])-(3[01]|[12]\d|0[1-9]|[1-9]| [1-9])];
    an alternative is a parser of a prefix, alternatives are tried in
    order, and a later failure backtracks into them. *)
Definition alternative := string -> option (Z * string).

Definition digit_in (lo hi : Z) (c : ascii) : option Z :=
  match digit_val c with
  | Some v => if (lo <=? v) && (v <=? hi) then Some v else None
  | None => None
  end.

(** [first] then a digit of [lo..hi], read as a two-digit number. *)
Definition two (first : ascii) (tens lo hi : Z) : alternative := fun s =>
  match s with
  | String a (String b r) =>
      if Ascii.eqb a first
      then match digit_in lo hi b with
           | Some v => Some (tens + v, r)
           | None => None
           end
      else None
  | _ => None
  end.

Definition one (lo hi : Z) : alternative := fun s =>
  match s with
  | String a r =>
      match digit_in lo hi a with Some v => Some (v, r) | None => None end
  | _ => None
  end.

Definition month_alts : list alternative :=
  [two "1" 10 0 2; two "0" 0 1 9; one 1 9].

Definition day_alts : list alternative :=
  [two "3" 30 0 1; two "1" 10 0 9; two "2" 20 0 9; two "0" 0 1 9;
   one 1 9; two " " 0 1 9].

Fixpoint first_match {B} (alts : list alternative)
    (k : Z -> string -> option B) (s : string) : option B :=
  match alts with
  | [] => None
  | p :: ps =>
      match match p s with Some (v, r) => k v r | None => None end with
      | Some b => Some b
      | None => first_match ps k s
      end
  end.

Definition parse_year (s : string) : option (Z * string) :=
  match s with
  | String a (String b (String c (String d r))) =>
      match digit_val a, digit_val b, digit_val c, digit_val d with
      | Some va, Some vb, Some vc, Some vd =>
          Some (1000 * va + 100 * vb + 10 * vc + vd, r)
      | _, _, _, _ => None
      end
  | _ => None
  end.

Definition expect (c : ascii) (s : string) : option string :=
  match s with
  | String a r => if Ascii.eqb a c then Some r else None
  | EmptyString => None
  end.

(** The month and day groups, with the dash between them. *)
Definition month_day (y : Z) (r1 : string) : option (Z * Z * Z * string) :=
  first_match month_alts (fun m r2 =>
    match expect "-" r2 with
    | Some r3 => first_match day_alts (fun d r4 => Some (y, m, d, r4)) r3
    | None => None
    end) r1.

(** [format_regex.match(s)]: the groups and the unmatched rest. *)
Definition regex_match (s : string) : option (Z * Z * Z * string) :=
  match parse_year s with
  | Some (y, r) =>
      match expect "-" r with
      | Some r1 => month_day y r1
      | None => None
      end
  | None => None
  end.

(** [datetime.strptime(s, '%Y-%m-%d').date()]; [None] stands for the
    [ValueError] of a string that does not match, of unconverted data
    after the match, or of a date that does not exist. *)
Definition strptime (s : string) : option date :=
  match regex_match s with
  | Some (y, m, d, EmptyString) =>
      let r := mk y m d in if valid r then Some r else None
  | _ => None
  end.

End Date.

Example isocalendar_2016_01_04 :
  Date.isocalendar (Date.mk 2016 1 4) = (2016, 1, 1)
  /\ Date.isocalendar (Date.mk 2016 1 3) = (2015, 53, 7)
  /\ Date.isocalendar (Date.mk 2018 12 31) = (2019, 1, 1)
  /\ Date.isocalendar (Date.mk 2016 1 8) = (2016, 1, 5).
Proof. repeat split; reflexivity. Qed.

Example strptime_examples :
  Date.strptime "2016-12-04" = Some (Date.mk 2016 12 4)
  /\ Date.strptime "12-04-2016" = None
  /\ Date.strptime "2016-1-4" = Some (Date.mk 2016 1 4)
  /\ Date.strptime "2015-02-29" = None
  /\ Date.strptime "2016-02-29" = Some (Date.mk 2016 2 29)
  /\ Date.strptime "2016-12-041" = None
  /\ Date.strptime "*" = None.
Proof. repeat split; reflexivity. Qed.

Example strftime_example :
  Date.strftime (Date.mk 2016 1 4) = "2016-01-04"
  /\ Date.strftime (Date.mk 987 11 30) = "987-11-30"
  /\ Date.strftime (Date.mk 5 1 2) = "5-01-02"
  /\ Date.strptime "987-11-30" = None.
Proof. repeat split; reflexivity. Qed.

(** ** Exceptions and values *)

Inductive value_error :=
| RequiredBackupDir                      (* 'Required argument: backup_dir' *)
| RequiredArguments                      (* 'Required arguments: ...' *)
| InvalidConnInfoKey                     (* 'Invalid key `..` found in conn_info' *)
| SeparatorInLabel                       (* 'Port, database, or schema may not contain `.`' *)
| BrainOverflow                          (* 'Programmer brain overflow' *)
| InvalidBackupType (t : string)         (* 'backup_type `..` not in ..' *)
| InvalidFilename (basename : string)    (* 'Invalid backup filename: ..' *)
| InvalidDate (filename date : string)   (* '.. contains invalid date ..' *)
| InvalidSuffix (suffix : string)        (* 'Invalid backup suffix: ..' *)
| TimeDataMismatch (s : string)          (* strptime outside [_parse_filename] *)
| InvalidLiteralForInt (s : string).     (* int() of a string *)

Inductive runtime_error :=
| WrongNumberOfPeriods (base_filename : string)
| ExpectedDailyBackups (mask : string)
| ExpectedWeeklyBackups (mask : string).

Inductive exn :=
| ValueError (e : value_error)
| RuntimeError (e : runtime_error)
| AttributeError (name : string)
| FileExistsError (path : string)
| FileNotFoundError (path : string)
| CalledProcessError (code : Z).

Inductive result (A : Type) :=
| Ok (a : A)
| Raise (e : exn).
Arguments Ok {A} a.
Arguments Raise {A} e.

Definition bind {A B} (m : result A) (k : A -> result B) : result B :=
  match m with
  | Ok a => k a
  | Raise e => Raise e
  end.

Notation "'let?' x := m 'in' k" := (bind m (fun x => k))
  (at level 10, x pattern, m at level 100, k at level 200).

Definition is_value_error {A} (r : result A) : Prop :=
  match r with
  | Raise (ValueError _) => True
  | _ => False
  end.

(** A retention count as the caller passes it: an [int], or the string
    read from the configuration file. *)
Inductive pyval :=
| PyInt (z : Z)
| PyStr (s : string).

Definition py_truthy (v : pyval) : bool :=
  match v with
  | PyInt z => negb (z =? 0)
  | PyStr s => Str.truthy s
  end.

Module PyInt.

Definition is_space (c : ascii) : bool :=
  match c with
  | " " | "009" | "010" | "011" | "012" | "013" | "133" | "160" => true
  | _ => false
  end%char.

Fixpoint lstrip (s : string) : string :=
  match s with
  | String a s' => if is_space a then lstrip s' else s
  | EmptyString => EmptyString
  end.

(** Digits with single underscores between them, then optional white
    space up to the end; [acc] is the value read so far and [after_digit]
    says whether an underscore may follow. *)
Fixpoint digits (after_digit : bool) (acc : Z) (s : string) : option Z :=
  match s with
  | EmptyString => if after_digit then Some acc else None
  | String a s' =>
      match Date.digit_val a with
      | Some v => digits true (10 * acc + v) s'
      | None =>
          if after_digit then
            if Ascii.eqb a "_" then
              match s' with
              | String b _ =>
                  match Date.digit_val b with
                  | Some _ => digits false acc s'
                  | None => None
                  end
              | EmptyString => None
              end
            else if is_space a then
              match lstrip s' with EmptyString => Some acc | _ => None end
            else None
          else None
      end
  end.

(** [int(s)] for a string in base ten. *)
Definition of_string (s : string) : option Z :=
  match lstrip s with
  | String "-" r => option_map Z.opp (digits false 0 r)
  | String "+" r => digits false 0 r
  | r => digits false 0 r
  end.

End PyInt.

(** [int(v)]. *)
Definition py_int (v : pyval) : result Z :=
  match v with
  | PyInt z => Ok z
  | PyStr s =>
      match PyInt.of_string s with
      | Some z => Ok z
      | None => Raise (ValueError (InvalidLiteralForInt s))
      end
  end.

Example py_int_examples :
  py_int (PyStr "7") = Ok 7 /\ py_int (PyStr " 12 ") = Ok 12
  /\ py_int (PyStr "0") = Ok 0 /\ py_truthy (PyStr "0") = true
  /\ py_int (PyStr "1_0") = Ok 10
  /\ py_int (PyStr "") = Raise (ValueError (InvalidLiteralForInt "")).
Proof. repeat split; reflexivity. Qed.

(** [l[:stop]] for a list. *)
Definition slice_to {A} (stop : Z) (l : list A) : list A :=
  let len := Z.of_nat (length l) in
  let s := if stop <? 0 then Z.max 0 (stop + len) else Z.min stop len in
  take (Z.to_nat s) l.

(** [l[-1]] for a list that is not empty. *)
Definition last_of {A} (l : list A) : option A := last l.

(** ** Schema selections and connection settings *)

(** [conn_info]: a dict from 'hostname', 'port' and 'username' to a
    string or [None]. *)
Abbreviation conn_info_t := (gmap string (option string)).

Definition conn_get (ci : conn_info_t) (key : string) : option string :=
  match ci !! key with
  | Some v => v
  | None => None
  end.

Record SchemaCriteria := mkCriteria {
  sc_database : string;
  sc_conn_info : conn_info_t;
  sc_include : option string;
  sc_exclude : option string
}.

(** What the constructor accepts as [schema_spec]: [None], one name, a
    collection of names, or a [SchemaCriteria]. *)
Inductive schema_spec_t :=
| SpecNone
| SpecName (name : string)
| SpecNames (names : list string)
| SpecCriteria (c : SchemaCriteria).

Definition opt_truthy (o : option string) : bool :=
  match o with
  | Some s => Str.truthy s
  | None => false
  end.

(** [schema_spec.include or schema_spec.exclude], as a truth value. *)
Definition selective (c : SchemaCriteria) : bool :=
  opt_truthy (sc_include c) || opt_truthy (sc_exclude c).

(** ** The environment of a run *)

Inductive tool_call :=
| PgDumpallGlobals (filename : string) (ci : conn_info_t)
| PgDump (database filename : string) (schemas : list string)
         (ci : conn_info_t) (empty : bool).

(** A directory entry is a path bound to the file (inode) it names; two
    hard links are two paths bound to one inode. *)
Abbreviation files_t := (gmap string nat).

Record Env := mkEnv {
  gethostname : string;                   (* [socket.gethostname()] *)
  get_today : Date.date;                  (* [datetime.date.today()] *)
  matching_schemas : SchemaCriteria -> result (list string);
  fnmatch : string -> string -> bool;     (* does [glob] match pattern, path *)
  run_tool : tool_call -> files_t -> result unit * files_t
}.

Record World := mkWorld {
  files : files_t;
  calls : list tool_call                  (* dump tools invoked so far *)
}.

(** ** The label functions of the module *)

Module Label.

Definition schema_label (schema_spec : schema_spec_t) (empty : bool)
  : result string :=
  if empty then Ok "no_schemas"
  else match schema_spec with
       | SpecNone => Ok "no_schemas"
       | SpecCriteria c =>
           if selective c then Ok "selected_schemas" else Ok "all_schemas"
       | SpecName name => Ok name
       | SpecNames [name] => Ok name
       | SpecNames (_ :: _ :: _) => Ok "selected_schemas"
       | SpecNames [] => Raise (ValueError BrainOverflow)
       end.

Definition port_label (port : option string) : string :=
  if opt_truthy port then default "" port else "5432".

Definition database_label (database : option string) : string :=
  if opt_truthy database then default "" database else "database_na".

Definition hostname_label (E : Env) (hostname : option string) : string :=
  let h1 := if opt_truthy hostname then default "" hostname
            else "localhost" in
  let h2 := if String.eqb h1 "127.0.0.1" || String.eqb h1 "localhost"
            then (if Str.truthy (gethostname E) then gethostname E
                  else "localhost")
            else h1 in
  if Str.contains Str.dot h2 then Str.partition_head Str.dot h2 else h2.

End Label.

(** ** The [Backup] class *)

(** The attributes of a [Backup] object. [_parse_filename] does not set
    [empty], [schema_spec] and [schema_names]; [None] stands for an
    attribute that is absent. *)
Record Backup := mkBackup {
  backup_dir : string;
  conn_info : conn_info_t;
  hostname_label : string;
  port_label : string;
  database_label : string;
  schema_label : string;
  date : string;
  backup_type : string;
  empty : option bool;
  schema_spec : option schema_spec_t;
  schema_names : option (list string)
}.

Definition with_date (b : Backup) (d : string) : Backup :=
  mkBackup (backup_dir b) (conn_info b) (hostname_label b) (port_label b)
    (database_label b) (schema_label b) d (backup_type b)
    (empty b) (schema_spec b) (schema_names b).

Definition with_backup_type (b : Backup) (t : string) : Backup :=
  mkBackup (backup_dir b) (conn_info b) (hostname_label b) (port_label b)
    (database_label b) (schema_label b) (date b) t
    (empty b) (schema_spec b) (schema_names b).

Definition NUM_FILENAME_PARTS : nat := 7.
Definition GLOBALS_SUFFIX : string := "sql".
Definition REGULAR_SUFFIX : string := "pg_dump_Fc".
Definition BACKUP_TYPES : list string := ["globals"; "daily"; "weekly"; "monthly"].

Definition in_list (s : string) (l : list string) : bool :=
  existsb (String.eqb s) l.

Definition validate_backup_type (t : string) : result unit :=
  if in_list t BACKUP_TYPES then Ok tt
  else Raise (ValueError (InvalidBackupType t)).

Definition validate_conn_info (ci : conn_info_t) : result unit :=
  if forallb (fun kv => in_list (fst kv) ["hostname"; "port"; "username"])
       (map_to_list ci)
  then Ok tt
  else Raise (ValueError InvalidConnInfoKey).

(** [Backup._parse_filename]. *)
Definition parse_filename (filename : string) : result Backup :=
  let '(dir, basename) := OsPath.split filename in
  match Str.split Str.dot basename with
  | [host; port; database; schema; d; t; suffix] =>
      let ci : conn_info_t :=
        <["hostname" := Some host]>
          (<["port" := Some port]> (<["username" := None]> ∅)) in
      match Date.strptime d with
      | None => Raise (ValueError (InvalidDate filename d))
      | Some _ =>
          let? _ := validate_backup_type t in
          if in_list suffix [GLOBALS_SUFFIX; REGULAR_SUFFIX]
          then Ok (mkBackup dir ci host port database schema d t
                     None None None)
          else Raise (ValueError (InvalidSuffix suffix))
      end
  | _ => Raise (ValueError (InvalidFilename basename))
  end.

(** [suffix] and [base_filename], the locals of the [filename] property. *)
Definition suffix (b : Backup) : string :=
  if String.eqb (backup_type b) "globals" then GLOBALS_SUFFIX
  else REGULAR_SUFFIX.

Definition base_filename (b : Backup) : string :=
  Str.join "." [hostname_label b; port_label b; database_label b;
                schema_label b; date b; backup_type b; suffix b].

(** The [filename] property. *)
Definition filename (b : Backup) : result string :=
  let expected_dots := (NUM_FILENAME_PARTS - 1)%nat in
  if Nat.eqb (Str.count Str.dot (base_filename b)) expected_dots
  then Ok (OsPath.join (backup_dir b) (base_filename b))
  else Raise (RuntimeError (WrongNumberOfPeriods (base_filename b))).

(** The [date_obj] property. *)
Definition date_obj (b : Backup) : result Date.date :=
  match Date.strptime (date b) with
  | Some d => Ok d
  | None => Raise (ValueError (TimeDataMismatch (date b)))
  end.

(** [week_number]: the ISO (year, week) of the backup. *)
Definition week_number (b : Backup) : result (Z * Z) :=
  let? d := date_obj b in Ok (fst (Date.isocalendar d)).

(** [month_number]: the (year, month) of the backup. *)
Definition month_number (b : Backup) : result (Z * Z) :=
  let? d := date_obj b in Ok (Date.year d, Date.month d).

Definition has_promotable_more_granular_backups (b : Backup)
    (days_to_keep weeks_to_keep : pyval) : bool :=
  if String.eqb (backup_type b) "weekly" then py_truthy days_to_keep
  else if String.eqb (backup_type b) "monthly" then py_truthy weeks_to_keep
  else false.

Section Engine.

Context (E : Env).

(** The names a schema selection resolves to ([self.schema_names]). *)
Definition resolve_schema_names (spec : schema_spec_t)
  : result (list string) :=
  match spec with
  | SpecCriteria c => matching_schemas E c
  | SpecNone => Ok []
  | SpecName name => Ok [name]
  | SpecNames names => Ok names
  end.

(** [Backup.__init__] called without [filename]. *)
Definition prospective (dir type database : option string)
    (spec : schema_spec_t) (ci : conn_info_t)
    (today : option Date.date) (emp : bool) : result Backup :=
  let? _ :=
    (if bool_decide (type = Some "globals")
     then (if opt_truthy dir then Ok tt
           else Raise (ValueError RequiredBackupDir))
     else (if opt_truthy dir && opt_truthy type && opt_truthy database
           then Ok tt
           else Raise (ValueError RequiredArguments))) in
  let? _ := validate_conn_info ci in
  let host := Label.hostname_label E (conn_get ci "hostname") in
  let port := Label.port_label (conn_get ci "port") in
  let db := Label.database_label database in
  let? label := Label.schema_label spec emp in
  let? names := resolve_schema_names spec in
  if existsb (Str.contains Str.dot) ([port; db] ++ names)
  then Raise (ValueError SeparatorInLabel)
  else
    let day := match today with Some d => d | None => get_today E end in
    let t := default "" type in
    let? _ := validate_backup_type t in
    Ok (mkBackup (default "" dir) ci host port db label
          (Date.strftime day) t (Some emp) (Some spec) (Some names)).

(** [Backup(backup_dir=.., .., filename=.., today=.., empty=..)]. *)
Definition Backup_init (dir type database : option string)
    (spec : schema_spec_t) (ci : conn_info_t) (fname : option string)
    (today : option Date.date) (emp : bool) : result Backup :=
  if opt_truthy fname then parse_filename (default "" fname)
  else prospective dir type database spec ci today emp.

(** [Backup(filename=f)]. *)
Definition Backup_of_filename (f : string) : result Backup :=
  Backup_init None None None SpecNone ∅ (Some f) None false.

(** [filename_with_date_masked]. *)
Definition filename_with_date_masked (b : Backup)
    (override_backup_type : option string) : result string :=
  let? f := filename b in
  let? mask_obj := Backup_of_filename f in
  let? mask_obj :=
    (if opt_truthy override_backup_type then
       let t := default "" override_backup_type in
       let? _ := validate_backup_type t in
       Ok (with_backup_type mask_obj t)
     else Ok mask_obj) in
  filename (with_date mask_obj "*").

(** *** Operations on the backup directory *)

Definition M (A : Type) : Type := World -> result A * World.

Definition ret {A} (a : A) : M A := fun w => (Ok a, w).
Definition lift {A} (r : result A) : M A := fun w => (r, w).
Definition mbind {A B} (m : M A) (k : A -> M B) : M B := fun w =>
  match m w with
  | (Ok a, w') => k a w'
  | (Raise e, w') => (Raise e, w')
  end.

(** [glob.glob(pattern)]: the paths that match, in no particular order. *)
Definition glob (fs : files_t) (pattern : string) : list string :=
  filter (fun p => fnmatch E pattern p = true) (map_to_list fs).*1.

(** [sort_files]: sorted by name. *)
Definition sort_files (l : list string) : list string :=
  merge_sort Str.le l.

Definition sorted_files (pattern : string) : M (list string) := fun w =>
  (Ok (sort_files (glob (files w) pattern)), w).

Definition os_link (src dst : string) : M unit := fun w =>
  match files w !! src with
  | None => (Raise (FileNotFoundError src), w)
  | Some inode =>
      match files w !! dst with
      | Some _ => (Raise (FileExistsError dst), w)
      | None => (Ok tt, mkWorld (<[dst := inode]> (files w)) (calls w))
      end
  end.

Definition os_unlink (path : string) : M unit := fun w =>
  match files w !! path with
  | None => (Raise (FileNotFoundError path), w)
  | Some _ => (Ok tt, mkWorld (delete path (files w)) (calls w))
  end.

(** A call of a dump tool: whether it returns or raises, the directory
    is as the tool left it. *)
Definition call_tool (c : tool_call) : M unit := fun w =>
  let '(r, fs) := run_tool E c (files w) in
  (r, mkWorld fs (calls w ++ [c])).

End Engine.

Notation "'let!' x := m 'in' k" := (mbind m (fun x => k))
  (at level 10, x pattern, m at level 100, k at level 200).

Section Operations.

Context (E : Env).

(** [for f in l: os.unlink(f)]. *)
Fixpoint unlink_all (l : list string) : M unit :=
  match l with
  | [] => ret tt
  | f :: rest => let! _ := os_unlink f in unlink_all rest
  end.

(** Does the newest backup of the coarser tier, if any, fall outside the
    period [number] of today? ([promote_daily_to_weekly] and
    [promote_weekly_to_monthly] of [do_promotion].) *)
Definition promotion_needed (period : Backup -> result (Z * Z))
    (number : Z * Z) (existing : list string) : result bool :=
  match last_of existing with
  | None => Ok true
  | Some newest =>
      let? last_backup := Backup_of_filename E newest in
      let? n := period last_backup in
      Ok (negb (bool_decide (n = number)))
  end.

(** One arm of [do_promotion]: [period] is [week_number] or
    [month_number], [finer] the tier to promote from. *)
Definition promote_from (self : Backup)
    (period : Backup -> result (Z * Z)) (finer : string)
    (missing : string -> runtime_error) : M unit :=
  let! number := lift (period self) in
  let! own_mask := lift (filename_with_date_masked E self None) in
  let! existing := sorted_files E own_mask in
  let! promote := lift (promotion_needed period number existing) in
  if promote : bool then
    let! finer_mask := lift (filename_with_date_masked E self (Some finer)) in
    let! candidates := sorted_files E finer_mask in
    match last_of candidates with
    | None => lift (Raise (RuntimeError (missing finer_mask)))
    | Some to_promote =>
        let! target := lift (filename self) in
        os_link to_promote target
    end
  else ret tt.

(** [Backup.do_promotion]. *)
Definition do_promotion (self : Backup) : M unit :=
  if String.eqb (backup_type self) "weekly" then
    promote_from self week_number "daily" ExpectedDailyBackups
  else if String.eqb (backup_type self) "monthly" then
    promote_from self month_number "weekly" ExpectedWeeklyBackups
  else ret tt.

Definition attribute {A} (name : string) (a : option A) : result A :=
  match a with
  | Some v => Ok v
  | None => Raise (AttributeError name)
  end.

(** [num_to_keep] of [expire]. *)
Definition num_to_keep (self : Backup)
    (days_to_keep weeks_to_keep months_to_keep : pyval) : result Z :=
  if String.eqb (backup_type self) "globals" then Ok 1
  else if String.eqb (backup_type self) "daily" then py_int days_to_keep
  else if String.eqb (backup_type self) "weekly" then py_int weeks_to_keep
  else if String.eqb (backup_type self) "monthly" then py_int months_to_keep
  else Raise (ValueError (InvalidBackupType (backup_type self))).

(** The mask [expire] computes from a fresh [Backup] object. *)
Definition expire_pattern (self : Backup) : result string :=
  let? spec := attribute "schema_spec" (schema_spec self) in
  let? today := date_obj self in
  let? emp := attribute "empty" (empty self) in
  let? mask_obj :=
    Backup_init E (Some (backup_dir self)) (Some (backup_type self))
      (Some (database_label self)) spec (conn_info self) None
      (Some today) emp in
  filename_with_date_masked E mask_obj None.

(** [Backup.expire]. *)
Definition expire (self : Backup)
    (days_to_keep weeks_to_keep months_to_keep : pyval) : M unit :=
  let! pattern := lift (expire_pattern self) in
  let! keep :=
    lift (num_to_keep self days_to_keep weeks_to_keep months_to_keep) in
  let! matched := sorted_files E pattern in
  unlink_all (slice_to (- keep) matched).

(** The schema list [backup] passes to [pg_dump]. *)
Definition schema_list (self : Backup) : result (list string) :=
  let? spec := attribute "schema_spec" (schema_spec self) in
  let unselective :=
    match spec with
    | SpecCriteria c => negb (selective c)
    | _ => false
    end in
  let falsy :=
    match spec with
    | SpecNone => true
    | SpecName name => negb (Str.truthy name)
    | SpecNames names => bool_decide (names = [])
    | SpecCriteria _ => false
    end in
  if falsy || unselective then Ok []
  else attribute "schema_names" (schema_names self).

(** [Backup.backup]. *)
Definition backup (self : Backup)
    (days_to_keep weeks_to_keep months_to_keep : pyval) : M unit :=
  let! _ :=
    (if has_promotable_more_granular_backups self days_to_keep weeks_to_keep
     then do_promotion self
     else if String.eqb (backup_type self) "globals" then
       let! f := lift (filename self) in
       call_tool E (PgDumpallGlobals f (conn_info self))
     else
       let! schemas := lift (schema_list self) in
       let! f := lift (filename self) in
       let! emp := lift (attribute "empty" (empty self)) in
       call_tool E (PgDump (database_label self) f schemas
                      (conn_info self) emp)) in
  expire self days_to_keep weeks_to_keep months_to_keep.

End Operations.

(** ** Command lines ([pg_utils]) *)

Module PgUtils.

(** An argument of [_make_cmd]: a string or [None], or a tuple or list of
    them. *)
Inductive cmd_arg :=
| Arg (a : option string)
| Args (l : list (option string)).

(** [a == '' or a is None]. *)
Definition is_blank (a : option string) : bool := negb (opt_truthy a).

(** [_optional]: the arguments as a tuple, or [''] when one of them
    is empty or [None]. *)
Definition _optional (args : list (option string)) : cmd_arg :=
  if existsb is_blank args then Arg (Some "") else Args args.

(** [_make_cmd]: tuples and lists flattened, empty strings and
    [None] dropped. *)
Definition _make_cmd (args : list cmd_arg) : list string :=
  let cmd := flat_map (fun a => match a with
                                | Arg x => [x]
                                | Args l => l
                                end) args in
  omap (fun a : option string => if opt_truthy a then a else None) cmd.

(** How [pg_dump] ends: with the command it hands to [run_command], with
    the [ValueError] for schemas given together with [empty], or with the
    error of the query that lists the schemas. *)
Inductive pg_dump_result :=
| Command (cmd : list string)
| IncompatibleSchemas
| QueryFailed (e : exn).

(** [pg_dump(database, filename, schemas, conn_info, empty)] up to the call
    of [run_command]; [tool] is the dump command split on white space and
    [get_schemas] the query for the schemas of a database. *)
Definition pg_dump (tool : list string)
    (get_schemas : string -> conn_info_t -> result (list string))
    (database filename : string) (schemas : list string)
    (ci : conn_info_t) (empty : bool) : pg_dump_result :=
  let cmd :=
    _make_cmd [Args (Some <$> tool); Arg (Some "--format=c");
               _optional [Some "-U"; conn_get ci "username"];
               _optional [Some "-h"; conn_get ci "hostname"];
               _optional [Some "-p"; conn_get ci "port"];
               Arg (Some "-d"); Arg (Some database);
               Arg (Some "-f"); Arg (Some filename)] in
  let selected (cmd : list string) :=
    match schemas with
    | [] => cmd
    | _ :: _ => cmd ++ flat_map (fun s => ["-n"; s]) schemas
    end in
  if empty then
    match schemas with
    | _ :: _ => IncompatibleSchemas
    | [] =>
        match get_schemas database ci with
        | Ok all => Command (selected (cmd ++ flat_map (fun s => ["-N"; s]) all))
        | Raise e => QueryFailed e
        end
    end
  else Command (selected cmd).

(** The command of [pg_dumpall_globals(filename, conn_info)]. *)
Definition pg_dumpall_globals (tool : list string) (filename : string)
    (ci : conn_info_t) : list string :=
  _make_cmd [Args (Some <$> tool);
             _optional [Some "-U"; conn_get ci "username"];
             _optional [Some "-h"; conn_get ci "hostname"];
             _optional [Some "-p"; conn_get ci "port"];
             Arg (Some "--globals-only"); Arg (Some "--database=template1");
             Arg (Some "-f"); Arg (Some filename)].

End PgUtils.

(** ** A concrete environment

    Used to run the model on examples. [star_match] is [fnmatch] for
    patterns whose only special character is [*], which is what the masks
    of this program are when the labels and the backup directory hold no
    [*], [?] or [[]; a [*] does not match across a [/]. *)

Fixpoint star_match_aux (fuel : nat) (pattern path : string) : bool :=
  match fuel with
  | O => false
  | S fuel' =>
      match pattern, path with
      | EmptyString, EmptyString => true
      | EmptyString, String _ _ => false
      | String p ps, _ =>
          if Ascii.eqb p "*" then
            star_match_aux fuel' ps path
            || match path with
               | String c cs =>
                   negb (Ascii.eqb c Str.slash)
                   && star_match_aux fuel' pattern cs
               | EmptyString => false
               end
          else match path with
               | String c cs => Ascii.eqb p c && star_match_aux fuel' ps cs
               | EmptyString => false
               end
      end
  end.

Definition star_match (pattern path : string) : bool :=
  star_match_aux (String.length pattern + String.length path + 1)
    pattern path.

(** A dump tool that succeeds and writes its output file as a new file. *)
Definition fresh_inode (fs : files_t) : nat :=
  S (foldr Nat.max O (map snd (map_to_list fs))).

Definition tool_writes (c : tool_call) (fs : files_t)
  : result unit * files_t :=
  match c with
  | PgDumpallGlobals f _ => (Ok tt, <[f := fresh_inode fs]> fs)
  | PgDump _ f _ _ _ => (Ok tt, <[f := fresh_inode fs]> fs)
  end.

Definition sample_env : Env :=
  mkEnv "dbhost" (Date.mk 2016 1 8) (fun _ => Ok ["public"])
    star_match tool_writes.

Definition sample_conn : conn_info_t :=
  <["hostname" := Some "db1.internal.example.com"]>
    (<["port" := Some "5432"]> (<["username" := Some "postgres"]> ∅)).

(** Daily artifacts of database [test] for 2016-01-04 .. 2016-01-08, each
    a file of its own. *)
Definition daily_name (day : string) : string :=
  "/backups/db1.5432.test.all_schemas.2016-01-" +:+ day +:+ ".daily.pg_dump_Fc".

Definition week1_dailies : files_t :=
  <[daily_name "04" := 4%nat]> (<[daily_name "05" := 5%nat]>
  (<[daily_name "06" := 6%nat]> (<[daily_name "07" := 7%nat]>
  (<[daily_name "08" := 8%nat]> ∅)))).

Definition all_criteria : SchemaCriteria :=
  mkCriteria "test" sample_conn None None.

(** The six fields of the name that come before the suffix. *)
Definition six_fields (b : Backup) : list string :=
  [hostname_label b; port_label b; database_label b; schema_label b;
   date b; backup_type b].

(** The object [_parse_filename] builds from the file name of [b]. *)
Definition parsed_from (dir : string) (b : Backup) : Backup :=
  mkBackup dir
    (<["hostname" := Some (hostname_label b)]>
       (<["port" := Some (port_label b)]> (<["username" := None]> ∅)))
    (hostname_label b) (port_label b) (database_label b) (schema_label b)
    (date b) (backup_type b) None None None.

(** Sample identities. *)
Definition sample_daily : Backup :=
  mkBackup "/backups" sample_conn "db1" "5432" "test" "public"
    "2016-01-08" "daily" (Some false) (Some (SpecName "public"))
    (Some ["public"]).

(** A server reached through its socket directory. *)
Definition socket_conn : conn_info_t :=
  <["hostname" := Some "/var/run/postgresql"]>
    (<["port" := Some "5432"]> (<["username" := Some "postgres"]> ∅)).

Definition socket_daily : Backup :=
  mkBackup "/backups" socket_conn "/var/run/postgresql" "5432" "test"
    "public" "2016-01-08" "daily" (Some false) (Some (SpecName "public"))
    (Some ["public"]).

(** The daily and weekly identities of database [test], all schemas, on
    2016-01-08. *)
Definition sample_all_daily : Backup :=
  mkBackup "/backups" sample_conn "db1" "5432" "test" "all_schemas"
    "2016-01-08" "daily" (Some false) (Some (SpecCriteria all_criteria))
    (Some ["public"]).

Definition sample_weekly : Backup :=
  with_backup_type sample_all_daily "weekly".

Definition weekly_name (day : string) : string :=
  "/backups/db1.5432.test.all_schemas.2016-01-" +:+ day +:+ ".weekly.pg_dump_Fc".

Definition daily_mask : string :=
  "/backups/db1.5432.test.all_schemas.*.daily.pg_dump_Fc".

Definition weekly_mask : string :=
  "/backups/db1.5432.test.all_schemas.*.weekly.pg_dump_Fc".

(** The directory after the daily of 2016-01-08 became the weekly. *)
Definition week1_promoted : files_t :=
  <[weekly_name "08" := 8%nat]> week1_dailies.

(** A directory that also holds a weekly artifact dated a week ahead. *)
Definition week1_and_later : files_t :=
  <[weekly_name "15" := 15%nat]> week1_promoted.

(** The monthly identity of the same group, and a directory in which the
    weekly of 2016-01-08 has become the monthly. *)
Definition sample_monthly : Backup :=
  with_backup_type sample_all_daily "monthly".

Definition monthly_name (day : string) : string :=
  "/backups/db1.5432.test.all_schemas.2016-01-" +:+ day +:+ ".monthly.pg_dump_Fc".

Definition monthly_mask : string :=
  "/backups/db1.5432.test.all_schemas.*.monthly.pg_dump_Fc".

Definition january_promoted : files_t :=
  <[monthly_name "08" := 8%nat]> week1_promoted.

(** An environment in which every dump tool fails after it has created
    its output file. *)
Definition tool_fails (c : tool_call) (fs : files_t)
  : result unit * files_t :=
  match c with
  | PgDumpallGlobals f _ =>
      (Raise (CalledProcessError 1), <[f := fresh_inode fs]> fs)
  | PgDump _ f _ _ _ =>
      (Raise (CalledProcessError 1), <[f := fresh_inode fs]> fs)
  end.

Definition failing_env : Env :=
  mkEnv "dbhost" (Date.mk 2016 1 8) (fun _ => Ok ["public"])
    star_match tool_fails.

(** An identity built with [empty] set and a schema name. *)
Definition empty_with_schema : Backup :=
  mkBackup "/backups" sample_conn "db1" "5432" "test" "no_schemas"
    "2016-01-08" "daily" (Some true) (Some (SpecName "public"))
    (Some ["public"]).


(** * Properties *)

(** ** Strings: splitting, joining, paths *)

#[local] Arguments String.append !s1 s2 : simpl nomatch.

Lemma append_empty_r s : s +:+ "" = s.
Proof. induction s as [|a s IH]; simpl; [reflexivity | now rewrite IH]. Qed.

Lemma append_assoc_str (a b c : string) : (a +:+ b) +:+ c = a +:+ (b +:+ c).
Proof. induction a as [|x a IH]; simpl; [reflexivity | now rewrite IH]. Qed.

Lemma contains_app c (a b : string) :
  Str.contains c (a +:+ b) = Str.contains c a || Str.contains c b.
Proof.
  induction a as [|x a IH]; simpl; [reflexivity |].
  destruct (Ascii.eqb x c); [reflexivity | exact IH].
Qed.

Lemma count_app c (a b : string) :
  Str.count c (a +:+ b) = (Str.count c a + Str.count c b)%nat.
Proof.
  induction a as [|x a IH]; simpl; [reflexivity |].
  destruct (Ascii.eqb x c); simpl; now rewrite IH.
Qed.

Lemma count_no_sep c s : Str.contains c s = false -> Str.count c s = O.
Proof.
  induction s as [|x s IH]; simpl; [reflexivity |].
  destruct (Ascii.eqb x c); [discriminate | exact IH].
Qed.

Lemma split_no_sep c s : Str.contains c s = false -> Str.split c s = [s].
Proof.
  induction s as [|x s IH]; simpl; [reflexivity |].
  destruct (Ascii.eqb x c); [discriminate |].
  intros H. now rewrite (IH H).
Qed.

Lemma split_app c (a b : string) :
  Str.contains c a = false ->
  Str.split c (a +:+ String c b) = a :: Str.split c b.
Proof.
  induction a as [|x a IH]; simpl.
  - intros _. now rewrite Ascii.eqb_refl.
  - destruct (Ascii.eqb x c); [discriminate |].
    intros H. now rewrite (IH H).
Qed.

(** Splitting undoes joining when no part holds the separator. *)
Lemma split_join c (l : list string) :
  l <> [] ->
  Forall (fun s => Str.contains c s = false) l ->
  Str.split c (Str.join (String c "") l) = l.
Proof.
  induction l as [|x l IH]; [congruence |].
  intros _ Hall. inversion Hall as [|? ? Hx Hl]; subst.
  destruct l as [|y l'].
  - simpl. now apply split_no_sep.
  - change (Str.join (String c "") (x :: y :: l'))
      with (x +:+ String c "" +:+ Str.join (String c "") (y :: l')).
    change (String c "" +:+ Str.join (String c "") (y :: l'))
      with (String c (Str.join (String c "") (y :: l'))).
    rewrite split_app by exact Hx.
    f_equal. apply IH; [congruence | exact Hl].
Qed.

(** A join of parts without the separator counts one separator per gap. *)
Lemma count_join c (l : list string) :
  Forall (fun s => Str.contains c s = false) l ->
  Str.count c (Str.join (String c "") l) = pred (length l).
Proof.
  induction l as [|x l IH]; [reflexivity |].
  intros Hall. inversion Hall as [|? ? Hx Hl]; subst.
  destruct l as [|y l'].
  - simpl. now apply count_no_sep.
  - change (Str.join (String c "") (x :: y :: l'))
      with (x +:+ String c (Str.join (String c "") (y :: l'))).
    rewrite count_app, (count_no_sep _ _ Hx).
    remember (Str.join (String c "") (y :: l')) as rest eqn:Hr.
    simpl. rewrite Ascii.eqb_refl, (IH Hl). reflexivity.
Qed.

Lemma partition_head_no_sep c s :
  Str.contains c (Str.partition_head c s) = false.
Proof.
  induction s as [|x s IH]; simpl; [reflexivity |].
  destruct (Ascii.eqb x c) eqn:E; simpl; [reflexivity |].
  now rewrite E.
Qed.

Lemma cut_no_slash t :
  Str.contains Str.slash t = false -> OsPath.cut t = ("", t).
Proof.
  induction t as [|x t IH]; simpl; [reflexivity |].
  destruct (Ascii.eqb x Str.slash); [discriminate |].
  intros H. now rewrite (IH H).
Qed.

Lemma cut_app_slash (a t : string) :
  Str.contains Str.slash t = false ->
  OsPath.cut (a +:+ String Str.slash t) = (a +:+ String Str.slash "", t).
Proof.
  intros Ht. induction a as [|x a IH]; simpl.
  - rewrite (cut_no_slash _ Ht). reflexivity.
  - rewrite IH. destruct (a +:+ String Str.slash "") eqn:E; [| reflexivity].
    destruct a; discriminate.
Qed.

Lemma endswith_app c s :
  Str.endswith c s = true -> exists a, s = a +:+ String c "".
Proof.
  induction s as [|x s IH]; simpl; [discriminate |].
  destruct s as [|y s'].
  - intros H. apply Ascii.eqb_eq in H. subst. now exists "".
  - intros H. destruct (IH H) as [a Ha]. exists (String x a).
    simpl. now rewrite <- Ha.
Qed.

Lemma split_tail_of_cut p :
  snd (OsPath.split p) = snd (OsPath.cut p).
Proof.
  unfold OsPath.split. destruct (OsPath.cut p) as [h t].
  destruct (Str.truthy h && negb (Str.all_char Str.slash h)); reflexivity.
Qed.

(** [os.path.split(os.path.join(dir, base))[1] == base] for a base name
    without a slash. *)
Lemma split_join_basename dir base :
  Str.contains Str.slash base = false ->
  snd (OsPath.split (OsPath.join dir base)) = base.
Proof.
  intros Hb. rewrite split_tail_of_cut. unfold OsPath.join.
  assert (Hs : Str.startswith Str.slash base = false).
  { destruct base as [|x b]; [reflexivity |]. simpl in *.
    destruct (Ascii.eqb x Str.slash); [discriminate | reflexivity]. }
  rewrite Hs.
  destruct (negb (Str.truthy dir) || Str.endswith Str.slash dir) eqn:E.
  - apply orb_true_iff in E as [E | E].
    + destruct dir; [| discriminate]. simpl. now rewrite cut_no_slash.
    + destruct (endswith_app _ _ E) as [a ->].
      rewrite append_assoc_str. simpl. now rewrite cut_app_slash.
  - now rewrite cut_app_slash.
Qed.

Lemma truthy_app_r (a b : string) :
  Str.truthy b = true -> Str.truthy (a +:+ b) = true.
Proof. destruct a; simpl; auto. Qed.

Lemma join_truthy dir base :
  Str.truthy base = true -> Str.truthy (OsPath.join dir base) = true.
Proof.
  intros H. unfold OsPath.join.
  destruct (Str.startswith Str.slash base); [exact H |].
  destruct (negb (Str.truthy dir) || Str.endswith Str.slash dir);
    now apply truthy_app_r.
Qed.

(** ** Dates: formatting and parsing *)

Ltac case_digit n :=
  destruct n as [|n|n]; try reflexivity;
  do 4 (try (destruct n as [n|n|]; try reflexivity)).

Lemma digit_char_not_dot n : Ascii.eqb (Date.digit_char n) Str.dot = false.
Proof. case_digit n. Qed.

Lemma digit_char_not_slash n : Ascii.eqb (Date.digit_char n) Str.slash = false.
Proof. case_digit n. Qed.

(** Case analysis on an integer that the context bounds. *)
Ltac enum_z n :=
  destruct n as [|n|n]; try lia;
  repeat (destruct n as [n|n|]; try lia).

Lemma digit_val_char n : 0 <= n <= 9 -> Date.digit_val (Date.digit_char n) = Some n.
Proof. intros H. enum_z n; reflexivity. Qed.

Lemma digit_compare a b :
  0 <= a <= 9 -> 0 <= b <= 9 ->
  Ascii.compare (Date.digit_char a) (Date.digit_char b) = (a ?= b).
Proof. intros Ha Hb. enum_z a; enum_z b; reflexivity. Qed.

Lemma strftime_no_dot d : Str.contains Str.dot (Date.strftime d) = false.
Proof.
  unfold Date.strftime, Date.year_digits, Date.pad4, Date.pad2.
  destruct (Date.year d <? 10);
    [| destruct (Date.year d <? 100); [| destruct (Date.year d <? 1000)]];
    simpl; now rewrite !digit_char_not_dot.
Qed.

Lemma strftime_no_slash d : Str.contains Str.slash (Date.strftime d) = false.
Proof.
  unfold Date.strftime, Date.year_digits, Date.pad4, Date.pad2.
  destruct (Date.year d <? 10);
    [| destruct (Date.year d <? 100); [| destruct (Date.year d <? 1000)]];
    simpl; now rewrite !digit_char_not_slash.
Qed.

Lemma valid_bounds d :
  Date.valid d = true ->
  1 <= Date.year d <= 9999 /\ 1 <= Date.month d <= 12
  /\ 1 <= Date.day d <= 31.
Proof.
  unfold Date.valid. rewrite !andb_true_iff, !Z.leb_le.
  intros [[[[[H1 H2] H3] H4] H5] H6].
  assert (Date.days_in_month (Date.year d) (Date.month d) <= 31).
  { unfold Date.days_in_month.
    repeat match goal with |- context [if ?b then _ else _] => destruct b end;
      lia. }
  lia.
Qed.

Lemma mod10_digit n : 0 <= n mod 10 <= 9.
Proof. pose proof (Z.mod_pos_bound n 10). lia. Qed.

Lemma parse_year_pad4 y r :
  0 <= y <= 9999 -> Date.parse_year (Date.pad4 y +:+ r) = Some (y, r).
Proof.
  intros Hy. unfold Date.pad4, Date.pad2. simpl.
  rewrite !digit_val_char by apply mod10_digit.
  do 2 f_equal. Z.div_mod_to_equations. lia.
Qed.

(** The month and day groups read back what [strftime] wrote. *)
Lemma month_day_roundtrip (y m d : Z) :
  1 <= m <= 12 -> 1 <= d <= 31 ->
  Date.month_day y (Date.pad2 m +:+ "-" +:+ Date.pad2 d) = Some (y, m, d, "").
Proof. intros Hm Hd. enum_z m; enum_z d; reflexivity. Qed.

(** From the year 1000 on the year has its four digits. *)
Lemma strftime_four d :
  1000 <= Date.year d ->
  Date.strftime d
  = Date.pad4 (Date.year d) +:+ "-" +:+ Date.pad2 (Date.month d)
    +:+ "-" +:+ Date.pad2 (Date.day d).
Proof.
  intros H. unfold Date.strftime, Date.year_digits.
  destruct (Z.ltb_spec (Date.year d) 10); [lia |].
  destruct (Z.ltb_spec (Date.year d) 100); [lia |].
  destruct (Z.ltb_spec (Date.year d) 1000); [lia | reflexivity].
Qed.

(** [strptime] inverts [strftime] on the dates whose year has four
    digits. *)
Lemma strptime_strftime d :
  Date.valid d = true -> 1000 <= Date.year d ->
  Date.strptime (Date.strftime d) = Some d.
Proof.
  intros Hv Hk. destruct (valid_bounds d Hv) as (Hy & Hm & Hd).
  rewrite (strftime_four d Hk).
  destruct d as [y m dd]. simpl in Hy, Hm, Hd, Hk.
  cbn [Date.year Date.month Date.day].
  assert (Hr : Date.regex_match
                 (Date.pad4 y +:+ "-" +:+ Date.pad2 m +:+ "-" +:+ Date.pad2 dd)
               = Some (y, m, dd, "")).
  { unfold Date.regex_match.
    rewrite parse_year_pad4 by lia.
    cbn [Date.expect String.append]. rewrite Ascii.eqb_refl.
    apply month_day_roundtrip; lia. }
  unfold Date.strptime. rewrite Hr. now rewrite Hv.
Qed.

Lemma compare_cons c1 s1 c2 s2 :
  String.compare (String c1 s1) (String c2 s2)
  = match Ascii.compare c1 c2 with
    | Eq => String.compare s1 s2
    | ne => ne
    end.
Proof. reflexivity. Qed.

(** Zero padding makes the order of the date strings the order of the
    dates. *)
Lemma strftime_compare d1 d2 :
  Date.valid d1 = true -> Date.valid d2 = true ->
  1000 <= Date.year d1 -> 1000 <= Date.year d2 ->
  String.compare (Date.strftime d1) (Date.strftime d2) = Date.compare d1 d2.
Proof.
  intros H1 H2 K1 K2.
  destruct (valid_bounds d1 H1) as (Hy1 & Hm1 & Hd1).
  destruct (valid_bounds d2 H2) as (Hy2 & Hm2 & Hd2).
  rewrite (strftime_four d1 K1), (strftime_four d2 K2).
  destruct d1 as [y1 m1 e1], d2 as [y2 m2 e2]. simpl in *.
  unfold Date.pad4, Date.pad2, Date.compare.
  cbn [String.append Date.year Date.month Date.day].
  rewrite ?compare_cons.
  rewrite !digit_compare by apply mod10_digit.
  repeat match goal with
         | |- context [?a ?= ?b] => destruct (Z.compare_spec a b)
         end;
    first [reflexivity | exfalso; Z.div_mod_to_equations; lia].
Qed.

(** ** The filename codec *)

Lemma contains_join c sep (l : list string) :
  Str.contains c sep = false ->
  Forall (fun s => Str.contains c s = false) l ->
  Str.contains c (Str.join sep l) = false.
Proof.
  intros Hsep. induction l as [|x l IH]; [reflexivity |].
  intros Hall. inversion Hall as [|? ? Hx Hl]; subst.
  destruct l as [|y l']; [exact Hx |].
  change (Str.join sep (x :: y :: l'))
    with (x +:+ sep +:+ Str.join sep (y :: l')).
  rewrite !contains_app, Hx, Hsep, (IH Hl). reflexivity.
Qed.

Lemma in_list_iff s (l : list string) : in_list s l = true <-> In s l.
Proof.
  unfold in_list. rewrite existsb_exists. split.
  - intros (x & Hx & He). apply String.eqb_eq in He. now subst.
  - intros H. exists s. split; [exact H | apply String.eqb_refl].
Qed.

Lemma validate_backup_type_ok t :
  validate_backup_type t = Ok tt <-> In t BACKUP_TYPES.
Proof.
  unfold validate_backup_type. rewrite <- in_list_iff.
  destruct (in_list t BACKUP_TYPES); split; congruence.
Qed.

(** A known backup type holds neither the field separator nor a slash. *)
Lemma backup_type_clean t c :
  In t BACKUP_TYPES -> c = Str.dot \/ c = Str.slash ->
  Str.contains c t = false.
Proof.
  intros Ht [-> | ->]; simpl in Ht;
    repeat (destruct Ht as [<- | Ht]; [reflexivity |]); contradiction.
Qed.

Lemma hostname_label_no_dot E h :
  Str.contains Str.dot (Label.hostname_label E h) = false.
Proof.
  unfold Label.hostname_label.
  match goal with
  | |- context [if Str.contains Str.dot ?x then _ else _] =>
      destruct (Str.contains Str.dot x) eqn:Hc
  end; [apply partition_head_no_sep | exact Hc].
Qed.

(** What a successful prospective construction has established. *)
Lemma prospective_inv E dir type db spec ci today emp b :
  prospective E dir type db spec ci today emp = Ok b ->
  exists label names,
    Label.schema_label spec emp = Ok label
    /\ resolve_schema_names E spec = Ok names
    /\ existsb (Str.contains Str.dot)
         ([Label.port_label (conn_get ci "port"); Label.database_label db]
            ++ names) = false
    /\ In (default "" type) BACKUP_TYPES
    /\ b = mkBackup (default "" dir) ci
             (Label.hostname_label E (conn_get ci "hostname"))
             (Label.port_label (conn_get ci "port"))
             (Label.database_label db) label
             (Date.strftime
                (match today with Some d => d | None => get_today E end))
             (default "" type) (Some emp) (Some spec) (Some names).
Proof.
  unfold prospective, bind. intros H.
  repeat match type of H with
         | match (if ?c then _ else _) with _ => _ end = _ =>
             destruct c; try discriminate H
         end.
  all: destruct (validate_conn_info ci); try discriminate H.
  all: destruct (Label.schema_label spec emp) as [label|] eqn:Hl;
    try discriminate H.
  all: destruct (resolve_schema_names E spec) as [names|] eqn:Hn;
    try discriminate H.
  all: match type of H with
       | (if ?c then _ else _) = _ => destruct c eqn:Hdots
       end; try discriminate H.
  all: destruct (validate_backup_type (default "" type)) as [[]|] eqn:Hv;
    try discriminate H.
  all: exists label, names; repeat split; try assumption;
    [now apply validate_backup_type_ok | now inversion H].
Qed.

Lemma schema_label_no_dot E spec emp label names :
  Label.schema_label spec emp = Ok label ->
  resolve_schema_names E spec = Ok names ->
  existsb (Str.contains Str.dot) names = false ->
  Str.contains Str.dot label = false.
Proof.
  unfold Label.schema_label. destruct emp.
  { intros [= <-]. reflexivity. }
  destruct spec as [|name|[|n1 [|n2 l]]|c]; simpl.
  - intros [= <-]. reflexivity.
  - intros [= <-] [= <-]. simpl. now rewrite orb_false_r.
  - discriminate.
  - intros [= <-] [= <-]. simpl. now rewrite orb_false_r.
  - intros [= <-]. reflexivity.
  - destruct (selective c); intros [= <-]; reflexivity.
Qed.

(** The six label fields of a constructed identity are free of the
    field separator. *)
Lemma prospective_no_dot E dir type db spec ci today emp b :
  prospective E dir type db spec ci today emp = Ok b ->
  Forall (fun s => Str.contains Str.dot s = false)
    [hostname_label b; port_label b; database_label b; schema_label b;
     date b; backup_type b].
Proof.
  intros H. destruct (prospective_inv _ _ _ _ _ _ _ _ _ H)
    as (label & names & Hl & Hn & Hd & Ht & ->). simpl.
  simpl in Hd. apply orb_false_iff in Hd as [Hp Hd].
  apply orb_false_iff in Hd as [Hdb Hnames].
  repeat constructor; try assumption.
  - apply hostname_label_no_dot.
  - eapply schema_label_no_dot; eassumption.
  - apply strftime_no_dot.
  - apply backup_type_clean; auto.
Qed.

Lemma suffix_clean b c :
  c = Str.dot \/ c = Str.slash -> Str.contains c (suffix b) = false.
Proof.
  unfold suffix. intros [-> | ->];
    destruct (String.eqb (backup_type b) "globals"); reflexivity.
Qed.

Lemma suffix_known b : in_list (suffix b) [GLOBALS_SUFFIX; REGULAR_SUFFIX] = true.
Proof.
  unfold suffix. destruct (String.eqb (backup_type b) "globals"); reflexivity.
Qed.

Lemma seven_fields_clean b c :
  c = Str.dot \/ c = Str.slash ->
  Forall (fun s => Str.contains c s = false) (six_fields b) ->
  Forall (fun s => Str.contains c s = false) (six_fields b ++ [suffix b]).
Proof.
  intros Hc H. apply Forall_app. split; [exact H |].
  constructor; [now apply suffix_clean | constructor].
Qed.

(** With separator-free fields the sanity check of [filename] passes. *)
Lemma filename_ok b :
  Forall (fun s => Str.contains Str.dot s = false) (six_fields b) ->
  filename b = Ok (OsPath.join (backup_dir b) (base_filename b)).
Proof.
  intros H. unfold filename, base_filename.
  change [hostname_label b; port_label b; database_label b; schema_label b;
          date b; backup_type b; suffix b] with (six_fields b ++ [suffix b]).
  change "."%string with (String Str.dot "").
  rewrite count_join by (apply seven_fields_clean; auto).
  reflexivity.
Qed.

(** The base name of a separator-free identity splits into its fields. *)
Lemma split_base_filename b :
  Forall (fun s => Str.contains Str.dot s = false) (six_fields b) ->
  Str.split Str.dot (base_filename b) = six_fields b ++ [suffix b].
Proof.
  intros H. unfold base_filename.
  change [hostname_label b; port_label b; database_label b; schema_label b;
          date b; backup_type b; suffix b] with (six_fields b ++ [suffix b]).
  change "."%string with (String Str.dot "").
  apply split_join; [discriminate | apply seven_fields_clean; auto].
Qed.

Lemma base_filename_no_slash b :
  Forall (fun s => Str.contains Str.slash s = false) (six_fields b) ->
  Str.contains Str.slash (base_filename b) = false.
Proof.
  intros H. unfold base_filename.
  change [hostname_label b; port_label b; database_label b; schema_label b;
          date b; backup_type b; suffix b] with (six_fields b ++ [suffix b]).
  apply contains_join; [reflexivity | apply seven_fields_clean; auto].
Qed.

Lemma base_filename_truthy b : Str.truthy (base_filename b) = true.
Proof.
  unfold base_filename. cbn [Str.join]. apply truthy_app_r. reflexivity.
Qed.

(** Decoding the encoded name of an identity whose fields hold neither
    the field separator nor a slash. *)
Lemma parse_filename_of b :
  Forall (fun s => Str.contains Str.dot s = false) (six_fields b) ->
  Forall (fun s => Str.contains Str.slash s = false) (six_fields b) ->
  Date.strptime (date b) <> None ->
  In (backup_type b) BACKUP_TYPES ->
  exists dir,
    parse_filename (OsPath.join (backup_dir b) (base_filename b))
    = Ok (parsed_from dir b).
Proof.
  intros Hdot Hslash Hdate Htype.
  pose proof (split_join_basename (backup_dir b) (base_filename b)
                (base_filename_no_slash b Hslash)) as Hbase.
  unfold parse_filename.
  destruct (OsPath.split (OsPath.join (backup_dir b) (base_filename b)))
    as [dir base] eqn:Hsplit.
  simpl in Hbase. subst base. exists dir.
  rewrite (split_base_filename b Hdot). cbn [six_fields app].
  destruct (Date.strptime (date b)); [| congruence].
  apply validate_backup_type_ok in Htype. rewrite Htype. cbn [bind].
  rewrite suffix_known. reflexivity.
Qed.

Lemma Backup_of_filename_parse E f :
  Str.truthy f = true -> Backup_of_filename E f = parse_filename f.
Proof.
  intros H. unfold Backup_of_filename, Backup_init. simpl. now rewrite H.
Qed.

(** C1, as amended: for every identity the constructor builds for a date
    [today] whose year has four digits, and whose host, port, database
    and schema labels hold no path separator, the encoded file name
    decodes, and the decoded object agrees with the identity on the seven
    fields of the name: host, port, database and schema labels, date, tier
    and suffix; its date is [today] again. ([conn_info], [empty],
    [schema_spec] and [schema_names] are not part of the name and are not
    recovered; a year before 1000 is written without padding and does not
    parse.) *)
Theorem decode_encode_identity_fields E dir type db spec ci today emp b :
  Date.valid today = true ->
  1000 <= Date.year today ->
  prospective E dir type db spec ci (Some today) emp = Ok b ->
  Forall (fun s => Str.contains Str.slash s = false)
    [hostname_label b; port_label b; database_label b; schema_label b] ->
  exists f p,
    filename b = Ok f
    /\ Backup_of_filename E f = Ok p
    /\ hostname_label p = hostname_label b
    /\ port_label p = port_label b
    /\ database_label p = database_label b
    /\ schema_label p = schema_label b
    /\ date p = date b
    /\ backup_type p = backup_type b
    /\ suffix p = suffix b
    /\ date_obj p = Ok today.
Proof.
  intros Hvalid Hyear Hb Hslash4.
  pose proof (prospective_no_dot _ _ _ _ _ _ _ _ _ Hb) as Hdot.
  destruct (prospective_inv _ _ _ _ _ _ _ _ _ Hb)
    as (label & names & _ & _ & _ & Htype & Heq).
  assert (Hdate : date b = Date.strftime today) by (now subst b).
  assert (Hty : backup_type b = default "" type) by (now subst b).
  assert (Hslash : Forall (fun s => Str.contains Str.slash s = false)
                     (six_fields b)).
  { inversion Hslash4 as [|? ? H1 T1]; subst.
    inversion T1 as [|? ? H2 T2]; subst.
    inversion T2 as [|? ? H3 T3]; subst.
    inversion T3 as [|? ? H4 _]; subst.
    repeat constructor; try assumption.
    - rewrite Hdate. apply strftime_no_slash.
    - rewrite Hty. apply backup_type_clean; auto. }
  assert (Hparse : Date.strptime (date b) = Some today).
  { rewrite Hdate. now apply strptime_strftime. }
  destruct (parse_filename_of b Hdot Hslash) as [d Hp].
  { congruence. }
  { now rewrite Hty. }
  exists (OsPath.join (backup_dir b) (base_filename b)), (parsed_from d b).
  split; [now apply filename_ok |].
  split.
  { rewrite Backup_of_filename_parse; [exact Hp |].
    apply join_truthy, base_filename_truthy. }
  repeat split. unfold date_obj. simpl. now rewrite Hparse.
Qed.

Lemma decode_encode_identity_fields_witness :
  Date.valid (Date.mk 2016 1 8) = true
  /\ 1000 <= Date.year (Date.mk 2016 1 8)
  /\ prospective sample_env (Some "/backups") (Some "daily") (Some "test")
       (SpecName "public") sample_conn (Some (Date.mk 2016 1 8)) false
     = Ok sample_daily
  /\ exists f p,
       filename sample_daily = Ok f
       /\ Backup_of_filename sample_env f = Ok p
       /\ hostname_label p = hostname_label sample_daily
       /\ port_label p = port_label sample_daily
       /\ database_label p = database_label sample_daily
       /\ schema_label p = schema_label sample_daily
       /\ date p = date sample_daily
       /\ backup_type p = backup_type sample_daily
       /\ suffix p = suffix sample_daily
       /\ date_obj p = Ok (Date.mk 2016 1 8).
Proof.
  split; [reflexivity |]. split; [cbn; lia |].
  split; [vm_compute; reflexivity |].
  apply (decode_encode_identity_fields sample_env (Some "/backups")
           (Some "daily") (Some "test") (SpecName "public") sample_conn
           (Date.mk 2016 1 8) false sample_daily).
  - reflexivity.
  - cbn; lia.
  - vm_compute; reflexivity.
  - repeat constructor.
Defined.

(** C1, as stated, fails: for a server named by its socket directory and
    a user name, the object decoded from the encoded file name is not the
    identity that was encoded. It has another host label and directory
    (the path separator in the host label cuts the name), its [conn_info]
    has lost the user name, and [empty], [schema_spec] and [schema_names]
    are absent. *)
Lemma decode_encode_not_identical :
  prospective sample_env (Some "/backups") (Some "daily") (Some "test")
    (SpecName "public") socket_conn (Some (Date.mk 2016 1 8)) false
  = Ok socket_daily
  /\ filename socket_daily
     = Ok "/var/run/postgresql.5432.test.public.2016-01-08.daily.pg_dump_Fc"
  /\ exists p,
       Backup_of_filename sample_env
         "/var/run/postgresql.5432.test.public.2016-01-08.daily.pg_dump_Fc"
       = Ok p
       /\ p <> socket_daily
       /\ hostname_label p = "postgresql"
       /\ hostname_label socket_daily = "/var/run/postgresql"
       /\ backup_dir p = "/var/run"
       /\ conn_info p !! "username" = Some None
       /\ conn_info socket_daily !! "username" = Some (Some "postgres")
       /\ empty p = None /\ schema_spec p = None /\ schema_names p = None.
Proof.
  split; [vm_compute; reflexivity |]. split; [vm_compute; reflexivity |].
  eexists. split; [vm_compute; reflexivity |].
  split; [| repeat split].
  intros H. apply (f_equal hostname_label) in H. discriminate H.
Qed.

(** ** Order of file names *)

Lemma ascii_compare_refl c : Ascii.compare c c = Eq.
Proof. unfold Ascii.compare. apply N.compare_refl. Qed.

Lemma string_compare_refl s : String.compare s s = Eq.
Proof.
  induction s as [|c s IH]; [reflexivity |].
  rewrite compare_cons, ascii_compare_refl. exact IH.
Qed.

Lemma compare_app_l (p a b : string) :
  String.compare (p +:+ a) (p +:+ b) = String.compare a b.
Proof.
  induction p as [|c p IH]; [reflexivity |].
  cbn [String.append]. rewrite compare_cons, ascii_compare_refl. exact IH.
Qed.

Lemma compare_app_r (a b r : string) :
  String.length a = String.length b ->
  String.compare (a +:+ r) (b +:+ r) = String.compare a b.
Proof.
  revert b. induction a as [|c a IH]; intros [|c' b] Hlen;
    try discriminate Hlen.
  - cbn [String.append]. apply string_compare_refl.
  - cbn [String.append]. rewrite !compare_cons.
    destruct (Ascii.compare c c'); try reflexivity.
    apply IH. now injection Hlen.
Qed.

Lemma strftime_length d :
  1000 <= Date.year d -> String.length (Date.strftime d) = 10%nat.
Proof. intros H. now rewrite (strftime_four d H). Qed.

(** The date sits in the encoded path between a prefix and a suffix that
    the other fields determine. *)
Lemma filename_shape b :
  exists pre post, forall d,
    OsPath.join (backup_dir b) (base_filename (with_date b d))
    = pre +:+ d +:+ post.
Proof.
  set (head := hostname_label b +:+ "." +:+ port_label b +:+ "."
               +:+ database_label b +:+ "." +:+ schema_label b +:+ ".").
  set (tail := "." +:+ backup_type b +:+ "." +:+ suffix b).
  assert (Hb : forall d, base_filename (with_date b d) = head +:+ d +:+ tail).
  { intros d. unfold base_filename, head, tail, suffix. cbn [Str.join with_date
      hostname_label port_label database_label schema_label date backup_type].
    now rewrite !append_assoc_str. }
  assert (Hs : forall d, Str.startswith Str.slash (head +:+ d +:+ tail)
                         = Str.startswith Str.slash head).
  { intros d. unfold head. destruct (hostname_label b); reflexivity. }
  destruct (Str.startswith Str.slash head) eqn:Hh.
  - exists head, tail. intros d. unfold OsPath.join. now rewrite Hb, Hs.
  - destruct (negb (Str.truthy (backup_dir b))
              || Str.endswith Str.slash (backup_dir b)) eqn:Hd.
    + exists (backup_dir b +:+ head), tail. intros d. unfold OsPath.join.
      now rewrite Hb, Hs, Hd, append_assoc_str.
    + exists (backup_dir b +:+ String Str.slash head), tail. intros d.
      unfold OsPath.join. rewrite Hb, Hs, Hd.
      now rewrite append_assoc_str.
Qed.

Lemma filename_inv b f :
  filename b = Ok f -> f = OsPath.join (backup_dir b) (base_filename b).
Proof.
  unfold filename. destruct (Nat.eqb _ _); congruence.
Qed.

Lemma ltb_compare (s1 s2 : string) :
  String.ltb s1 s2 = true <-> String.compare s1 s2 = Lt.
Proof. unfold String.ltb. destruct (String.compare s1 s2); intuition congruence. Qed.

Lemma leb_compare (s1 s2 : string) :
  String.leb s1 s2 = true <-> String.compare s1 s2 <> Gt.
Proof. unfold String.leb. destruct (String.compare s1 s2); intuition congruence. Qed.

(** C6, as amended: two identities, constructed or decoded, that differ
    only in their date, each date string being the zero-padded encoding
    the constructor writes for a date whose year has four digits, have
    encoded file names whose string order is the order of the two dates:
    the names compare as the dates do, so one name sorts before the other
    exactly when its date is the earlier one. *)
Theorem filename_order_is_date_order (b : Backup) (d1 d2 : Date.date)
    (f1 f2 : string) :
  Date.valid d1 = true -> Date.valid d2 = true ->
  1000 <= Date.year d1 -> 1000 <= Date.year d2 ->
  filename (with_date b (Date.strftime d1)) = Ok f1 ->
  filename (with_date b (Date.strftime d2)) = Ok f2 ->
  String.compare f1 f2 = Date.compare d1 d2
  /\ (Str.lt f1 f2 <-> Date.compare d1 d2 = Lt)
  /\ (Str.le f1 f2 <-> Date.compare d1 d2 <> Gt).
Proof.
  intros Hv1 Hv2 Hk1 Hk2 H1 H2.
  apply filename_inv in H1, H2. cbn [with_date backup_dir] in H1, H2.
  destruct (filename_shape b) as (pre & post & Hshape).
  assert (Hc : String.compare f1 f2 = Date.compare d1 d2).
  { rewrite H1, H2, !Hshape, compare_app_l, compare_app_r
      by now rewrite !strftime_length.
    now apply strftime_compare. }
  split; [exact Hc |]. unfold Str.lt, Str.le.
  now rewrite ltb_compare, leb_compare, Hc.
Qed.

Lemma filename_order_is_date_order_witness :
  String.compare
    "/backups/db1.5432.test.public.2015-12-31.daily.pg_dump_Fc"
    "/backups/db1.5432.test.public.2016-01-04.daily.pg_dump_Fc"
  = Date.compare (Date.mk 2015 12 31) (Date.mk 2016 1 4)
  /\ (Str.lt "/backups/db1.5432.test.public.2015-12-31.daily.pg_dump_Fc"
             "/backups/db1.5432.test.public.2016-01-04.daily.pg_dump_Fc"
      <-> Date.compare (Date.mk 2015 12 31) (Date.mk 2016 1 4) = Lt)
  /\ (Str.le "/backups/db1.5432.test.public.2015-12-31.daily.pg_dump_Fc"
             "/backups/db1.5432.test.public.2016-01-04.daily.pg_dump_Fc"
      <-> Date.compare (Date.mk 2015 12 31) (Date.mk 2016 1 4) <> Gt).
Proof.
  apply (filename_order_is_date_order sample_daily
           (Date.mk 2015 12 31) (Date.mk 2016 1 4));
    first [reflexivity | cbn; lia].
Defined.

(** C6, as stated, fails. The year is written without padding: of two
    identities the constructor builds alike for 0987-11-30 and for
    1000-01-01, the one with the later date has the name that sorts first.
    And a decoded identity keeps the date string of its file name: the
    name dated [2016-1-8] sorts after the name dated [2016-01-09]. *)
Lemma filename_order_is_not_date_order :
  (exists b1 b2 f1 f2,
     prospective sample_env (Some "/backups") (Some "daily") (Some "test")
       (SpecName "public") sample_conn (Some (Date.mk 987 11 30)) false
     = Ok b1
     /\ prospective sample_env (Some "/backups") (Some "daily") (Some "test")
          (SpecName "public") sample_conn (Some (Date.mk 1000 1 1)) false
        = Ok b2
     /\ b2 = with_date b1 (date b2)
     /\ filename b1 = Ok f1 /\ filename b2 = Ok f2
     /\ Date.compare (Date.mk 987 11 30) (Date.mk 1000 1 1) = Lt
     /\ Str.lt f2 f1)
  /\ (exists p1 p2 d1 d2 f1 f2,
        Backup_of_filename sample_env
          "/backups/db1.5432.test.public.2016-1-8.daily.pg_dump_Fc" = Ok p1
        /\ Backup_of_filename sample_env
             "/backups/db1.5432.test.public.2016-01-09.daily.pg_dump_Fc"
           = Ok p2
        /\ p2 = with_date p1 (date p2)
        /\ date_obj p1 = Ok d1 /\ date_obj p2 = Ok d2
        /\ filename p1 = Ok f1 /\ filename p2 = Ok f2
        /\ Date.compare d1 d2 = Lt
        /\ Str.lt f2 f1).
Proof.
  split.
  - eexists _, _, _, _.
    split; [vm_compute; reflexivity |].
    split; [vm_compute; reflexivity |].
    split; [reflexivity |].
    split; [vm_compute; reflexivity |].
    split; [vm_compute; reflexivity |].
    split; vm_compute; reflexivity.
  - eexists _, _, _, _, _, _.
    split; [vm_compute; reflexivity |].
    split; [vm_compute; reflexivity |].
    split; [reflexivity |].
    split; [vm_compute; reflexivity |].
    split; [vm_compute; reflexivity |].
    split; [vm_compute; reflexivity |].
    split; [vm_compute; reflexivity |].
    split; vm_compute; reflexivity.
Qed.

(** ** Decoding *)

Lemma not_in_list s (l : list string) : in_list s l = false <-> ~ In s l.
Proof.
  rewrite <- in_list_iff. destruct (in_list s l); split; congruence.
Qed.

(** C7, as amended: decoding a file name raises a validation error exactly
    when the base name does not split into seven dot-separated fields, or
    the date field does not parse as YYYY-MM-DD, or the tier field is not
    one of globals, daily, weekly and monthly, or the suffix field is
    neither [sql] nor [pg_dump_Fc]; the suffix is not compared with the
    tier. Decoding raises no other kind of error. *)
Theorem decode_raises_exactly_when (E : Env) (f : string) :
  (is_value_error (Backup_of_filename E f) <->
   length (Str.split Str.dot (snd (OsPath.split f))) <> NUM_FILENAME_PARTS
   \/ exists host port database schema d t sfx,
        Str.split Str.dot (snd (OsPath.split f))
        = [host; port; database; schema; d; t; sfx]
        /\ (Date.strptime d = None
            \/ ~ In t BACKUP_TYPES
            \/ ~ In sfx [GLOBALS_SUFFIX; REGULAR_SUFFIX]))
  /\ (forall e, Backup_of_filename E f = Raise e -> exists v, e = ValueError v).
Proof.
  destruct f as [|c f].
  { split; [| intros e H; inversion H; eauto].
    split; [intros _; left; discriminate | intros _; exact I]. }
  rewrite Backup_of_filename_parse by reflexivity.
  unfold parse_filename.
  destruct (OsPath.split (String c f)) as [dir base]. cbn [snd].
  destruct (Str.split Str.dot base)
    as [|h [|p [|db [|s [|d [|t [|x [|y l]]]]]]]];
    try (split; [| intros e H; inversion H; eauto];
         split; [intros _; left; discriminate | intros _; exact I]).
  unfold validate_backup_type.
  destruct (Date.strptime d) as [dt|] eqn:Hd.
  2:{ split; [| intros e H; inversion H; eauto].
      split; [| intros _; exact I].
      intros _. right. exists h, p, db, s, d, t, x. auto. }
  destruct (in_list t BACKUP_TYPES) eqn:Ht; cbn [bind].
  2:{ split; [| intros e H; inversion H; eauto].
      split; [| intros _; exact I].
      intros _. right. exists h, p, db, s, d, t, x.
      apply not_in_list in Ht. auto. }
  destruct (in_list x [GLOBALS_SUFFIX; REGULAR_SUFFIX]) eqn:Hx.
  2:{ split; [| intros e H; inversion H; eauto].
      split; [| intros _; exact I].
      intros _. right. exists h, p, db, s, d, t, x.
      apply not_in_list in Hx. auto. }
  split; [| intros e H; discriminate H].
  split; [intros [] |].
  intros [Hlen | (h' & p' & db' & s' & d' & t' & x' & Heq & Hbad)].
  - now apply Hlen.
  - injection Heq as <- <- <- <- <- <- <-.
    apply in_list_iff in Ht, Hx.
    destruct Hbad as [Hbad | [Hbad | Hbad]]; [congruence | tauto | tauto].
Qed.

(** C7, as stated, fails: the name of a daily backup with the suffix of a
    globals dump, and the name of a globals backup with the suffix of a
    regular dump, are both decoded without error, although the suffix is
    not the one the decoded tier is written with. *)
Lemma decode_accepts_suffix_of_other_tier :
  (exists p,
     Backup_of_filename sample_env
       "/backups/localhost.5432.adb.aschema.2016-12-04.daily.sql" = Ok p
     /\ backup_type p = "daily" /\ suffix p = "pg_dump_Fc")
  /\ (exists p,
        Backup_of_filename sample_env
          "/backups/localhost.5432.database_na.no_schemas.2016-12-04.globals.pg_dump_Fc"
        = Ok p
        /\ backup_type p = "globals" /\ suffix p = "sql")
  /\ ~ is_value_error
         (Backup_of_filename sample_env
            "/backups/localhost.5432.adb.aschema.2016-12-04.daily.sql")
  /\ ~ is_value_error
         (Backup_of_filename sample_env
            "/backups/localhost.5432.database_na.no_schemas.2016-12-04.globals.pg_dump_Fc").
Proof.
  split; [eexists; split; [vm_compute; reflexivity | split; reflexivity] |].
  split; [eexists; split; [vm_compute; reflexivity | split; reflexivity] |].
  split; vm_compute; exact (fun H => H).
Qed.

(** ** Labels *)

(** C8: [schema_label] yields [no_schemas] when [empty] is set or the
    selection is [None]; otherwise a single name (a string, or a collection
    of one) yields that name, a collection of two or more names yields
    [selected_schemas], criteria with a nonempty [include] or a nonempty
    [exclude] yield [selected_schemas], and criteria with neither (each
    being [None] or the empty string) yield [all_schemas]. *)
Theorem schema_label_cases :
  (forall spec, Label.schema_label spec true = Ok "no_schemas")
  /\ Label.schema_label SpecNone false = Ok "no_schemas"
  /\ (forall name, Label.schema_label (SpecName name) false = Ok name)
  /\ (forall name, Label.schema_label (SpecNames [name]) false = Ok name)
  /\ (forall n1 n2 rest,
        Label.schema_label (SpecNames (n1 :: n2 :: rest)) false
        = Ok "selected_schemas")
  /\ (forall db ci a s exc,
        Label.schema_label
          (SpecCriteria (mkCriteria db ci (Some (String a s)) exc)) false
        = Ok "selected_schemas")
  /\ (forall db ci inc a s,
        Label.schema_label
          (SpecCriteria (mkCriteria db ci inc (Some (String a s)))) false
        = Ok "selected_schemas")
  /\ (forall db ci,
        Forall (fun '(inc, exc) =>
                  Label.schema_label
                    (SpecCriteria (mkCriteria db ci inc exc)) false
                  = Ok "all_schemas")
          [(None, None); (None, Some ""); (Some "", None); (Some "", Some "")]).
Proof.
  repeat split; try reflexivity.
  - intros db ci inc a s. unfold Label.schema_label, selective.
    cbn [sc_include sc_exclude opt_truthy Str.truthy].
    now rewrite orb_true_r.
  - intros db ci. repeat constructor.
Qed.

(** ** The constructor's check of the separator *)

(** The check itself: when the schema names resolve, a [.] in the port
    label, the database label or one of the names makes the constructor
    raise [ValueError]. *)
Lemma prospective_rejects_separator E dir type db spec ci today emp names :
  resolve_schema_names E spec = Ok names ->
  Exists (fun s => Str.contains Str.dot s = true)
    (Label.port_label (conn_get ci "port") :: Label.database_label db
       :: names) ->
  is_value_error (prospective E dir type db spec ci today emp).
Proof.
  intros Hn Hex. unfold prospective.
  destruct (if bool_decide (type = Some "globals") then _ else _)
    as [[]|e] eqn:Hreq.
  2:{ repeat match type of Hreq with
             | (if ?c then _ else _) = _ => destruct c
             end; inversion Hreq; exact I. }
  cbn [bind]. unfold validate_conn_info.
  destruct (forallb _ _); [| exact I]. cbn [bind].
  destruct (Label.schema_label spec emp) as [label|e] eqn:Hl.
  2:{ unfold Label.schema_label in Hl.
      repeat match type of Hl with
             | (if ?c then _ else _) = _ => destruct c
             | match ?x with _ => _ end = _ => destruct x
             end; inversion Hl; exact I. }
  cbn [bind]. rewrite Hn. cbn [bind].
  assert (He : existsb (Str.contains Str.dot)
                 ([Label.port_label (conn_get ci "port");
                   Label.database_label db] ++ names) = true).
  { apply existsb_exists. apply Exists_exists in Hex as (s & Hin & Hs).
    exists s. split; [| exact Hs].
    apply list_elem_of_In. exact Hin. }
  rewrite He. exact I.
Qed.

(** C9: the check does not keep every constructed identity parseable. The
    constructor accepts a database whose name holds the path separator,
    the identity encodes to a file name, and decoding that name raises
    [ValueError]: the base name that [os.path.split] returns starts after
    the separator and has four fields. *)
Theorem constructed_identity_with_unparseable_name :
  exists b,
    prospective sample_env (Some "/backups") (Some "daily") (Some "a/b")
      SpecNone ∅ (Some (Date.mk 2016 1 8)) false = Ok b
    /\ filename b
       = Ok "/backups/dbhost.5432.a/b.no_schemas.2016-01-08.daily.pg_dump_Fc"
    /\ Backup_of_filename sample_env
         "/backups/dbhost.5432.a/b.no_schemas.2016-01-08.daily.pg_dump_Fc"
       = Raise (ValueError
                  (InvalidFilename "b.no_schemas.2016-01-08.daily.pg_dump_Fc"))
    /\ filename_with_date_masked sample_env b None
       = Raise (ValueError
                  (InvalidFilename "b.no_schemas.2016-01-08.daily.pg_dump_Fc")).
Proof.
  eexists. split; [vm_compute; reflexivity |].
  repeat split; vm_compute; reflexivity.
Qed.

(** ** The order [sort_files] sorts by *)

Lemma string_compare_le_trans (a b c : string) :
  String.compare a b <> Gt -> String.compare b c <> Gt ->
  String.compare a c <> Gt.
Proof.
  revert b c. induction a as [|x a IH]; intros [|y b] [|z c];
    try (cbn; congruence).
  rewrite !compare_cons. unfold Ascii.compare.
  destruct (N.compare_spec (N_of_ascii x) (N_of_ascii y)) as [Hxy|Hxy|Hxy];
    destruct (N.compare_spec (N_of_ascii y) (N_of_ascii z)) as [Hyz|Hyz|Hyz];
    destruct (N.compare_spec (N_of_ascii x) (N_of_ascii z)) as [Hxz|Hxz|Hxz];
    try congruence; try lia.
  apply IH.
Qed.

#[global] Instance str_le_trans : Transitive Str.le.
Proof.
  intros a b c. unfold Str.le. rewrite !leb_compare.
  apply string_compare_le_trans.
Qed.

#[global] Instance str_le_total : Total Str.le.
Proof. intros a b. apply String.leb_total. Qed.

#[global] Instance str_le_antisym : AntiSymm (=) Str.le.
Proof. intros a b. apply String.leb_antisym. Qed.

#[global] Instance str_le_refl : Reflexive Str.le.
Proof. intros a. destruct (String.leb_total a a); assumption. Qed.

(** ** The backup directory *)

Lemma glob_elem E (fs : files_t) pattern p :
  p ∈ glob E fs pattern <-> is_Some (fs !! p) /\ fnmatch E pattern p = true.
Proof.
  unfold glob. rewrite list_elem_of_filter, list_elem_of_fmap. split.
  - intros [Hm ([k v] & -> & Hin)]. apply elem_of_map_to_list in Hin.
    split; [eexists; exact Hin | exact Hm].
  - intros [[v Hv] Hm]. split; [exact Hm |].
    exists (p, v). split; [reflexivity | now apply elem_of_map_to_list].
Qed.

Lemma glob_NoDup E (fs : files_t) pattern : NoDup (glob E fs pattern).
Proof. unfold glob. apply NoDup_filter, NoDup_fst_map_to_list. Qed.

Lemma sort_files_perm l : sort_files l ≡ₚ l.
Proof. apply merge_sort_Permutation. Qed.

Lemma sort_files_sorted l : StronglySorted Str.le (sort_files l).
Proof. apply StronglySorted_merge_sort; apply _. Qed.

Lemma sort_files_elem l p : p ∈ sort_files l <-> p ∈ l.
Proof. now rewrite sort_files_perm. Qed.

Lemma sort_files_nil l : sort_files l = [] <-> l = [].
Proof.
  split; [| intros ->; reflexivity].
  intros H. apply Permutation_nil_r. rewrite <- H. symmetry. apply sort_files_perm.
Qed.

(** A sorted list of distinct names is determined by its elements. *)
Lemma sort_files_unique l k :
  StronglySorted Str.le k -> k ≡ₚ l -> sort_files l = k.
Proof.
  intros Hk Hp. apply (StronglySorted_unique Str.le).
  - apply sort_files_sorted.
  - exact Hk.
  - now rewrite sort_files_perm.
Qed.

(** The last of the sorted names is the greatest. *)
Lemma last_sort_files_greatest l x :
  last_of (sort_files l) = Some x ->
  x ∈ l /\ forall y, y ∈ l -> Str.le y x.
Proof.
  unfold last_of. intros H. apply last_Some in H as [l' Hl].
  pose proof (sort_files_sorted l) as Hs. rewrite Hl in Hs.
  split.
  - apply sort_files_elem. rewrite Hl. apply elem_of_app. right.
    now apply list_elem_of_singleton.
  - intros y Hy. apply sort_files_elem in Hy. rewrite Hl in Hy.
    apply elem_of_app in Hy as [Hy | Hy].
    + apply (StronglySorted_app_1_elem_of Str.le l' [x]); auto.
      now apply list_elem_of_singleton.
    + apply list_elem_of_singleton in Hy. subst y. reflexivity.
Qed.

Lemma StronglySorted_drop n (l : list string) :
  StronglySorted Str.le l -> StronglySorted Str.le (drop n l).
Proof.
  intros H. rewrite <- (take_drop n l) in H.
  now apply StronglySorted_app_1_r in H.
Qed.

Lemma sort_glob_NoDup E (fs : files_t) pattern :
  NoDup (sort_files (glob E fs pattern)).
Proof. rewrite sort_files_perm. apply glob_NoDup. Qed.

Lemma NoDup_take_drop (l : list string) n :
  NoDup l ->
  NoDup (take n l) /\ NoDup (drop n l)
  /\ (forall x, x ∈ take n l -> x ∉ drop n l)
  /\ (forall x, x ∈ l <-> x ∈ take n l \/ x ∈ drop n l).
Proof.
  intros H. rewrite <- (take_drop n l) in H.
  apply NoDup_app in H as (H1 & H2 & H3).
  repeat split; try assumption.
  - intros Hx. rewrite <- (take_drop n l) in Hx. now apply elem_of_app in Hx.
  - intros Hx. rewrite <- (take_drop n l). now apply elem_of_app.
Qed.

(** Unlinking distinct existing paths succeeds and removes exactly them. *)
Lemma unlink_all_spec (l : list string) (fs : files_t) (c : list tool_call) :
  NoDup l -> (forall p, p ∈ l -> is_Some (fs !! p)) ->
  exists fs',
    unlink_all l (mkWorld fs c) = (Ok tt, mkWorld fs' c)
    /\ (forall p, p ∈ l -> fs' !! p = None)
    /\ (forall p, p ∉ l -> fs' !! p = fs !! p).
Proof.
  revert fs. induction l as [|f l IH]; intros fs Hnd Hex.
  - exists fs. split; [reflexivity |]. split; [| reflexivity].
    intros p Hp. now apply not_elem_of_nil in Hp.
  - apply NoDup_cons in Hnd as [Hf Hnd].
    destruct (Hex f) as [inode Hino]; [now left |].
    destruct (IH (delete f fs) Hnd) as (fs' & Hrun & Hgone & Hkept).
    { intros p Hp. rewrite lookup_delete_ne; [apply Hex; now right |].
      intros ->. contradiction. }
    exists fs'. split; [| split].
    + cbn [unlink_all]. unfold mbind, os_unlink. cbn [files calls].
      rewrite Hino. exact Hrun.
    + intros p Hp. apply elem_of_cons in Hp as [-> | Hp]; [| now apply Hgone].
      rewrite Hkept by assumption. apply lookup_delete_eq.
    + intros p Hp. apply not_elem_of_cons in Hp as [Hne Hp].
      rewrite Hkept by assumption. now apply lookup_delete_ne.
Qed.

Lemma slice_to_keep (keep : Z) (l : list string) :
  0 < keep ->
  slice_to (- keep) l = take (length l - Z.to_nat keep)%nat l.
Proof.
  intros H. unfold slice_to.
  destruct (Z.ltb_spec (- keep) 0); [| lia]. f_equal. lia.
Qed.

Lemma slice_to_zero (l : list string) : slice_to (- 0) l = [].
Proof.
  unfold slice_to. cbn [Z.opp Z.ltb Z.compare].
  now rewrite Z.min_l by lia.
Qed.

(** What [expire] does once the mask and the count are known. *)
Lemma expire_run E self days weeks months w pattern keep :
  expire_pattern E self = Ok pattern ->
  num_to_keep self days weeks months = Ok keep ->
  expire E self days weeks months w
  = unlink_all (slice_to (- keep) (sort_files (glob E (files w) pattern))) w.
Proof.
  intros Hp Hk. unfold expire, mbind, lift, sorted_files.
  now rewrite Hp, Hk.
Qed.

(** ** Promotion *)

(** The weekly arm of [do_promotion], step by step. *)
Lemma do_promotion_weekly E self w n mask :
  backup_type self = "weekly" ->
  week_number self = Ok n ->
  filename_with_date_masked E self None = Ok mask ->
  do_promotion E self w
  = match promotion_needed E week_number n
            (sort_files (glob E (files w) mask)) with
    | Raise e => (Raise e, w)
    | Ok false => (Ok tt, w)
    | Ok true =>
        match filename_with_date_masked E self (Some "daily") with
        | Raise e => (Raise e, w)
        | Ok dmask =>
            match last_of (sort_files (glob E (files w) dmask)) with
            | None => (Raise (RuntimeError (ExpectedDailyBackups dmask)), w)
            | Some src =>
                match filename self with
                | Raise e => (Raise e, w)
                | Ok target => os_link src target w
                end
            end
        end
    end.
Proof.
  intros Ht Hn Hm. unfold do_promotion. rewrite Ht, String.eqb_refl.
  unfold promote_from, mbind, lift, sorted_files, ret.
  rewrite Hn, Hm.
  destruct (promotion_needed E week_number n _) as [[|]|e];
    try reflexivity.
  destruct (filename_with_date_masked E self (Some "daily")) as [dmask|e];
    [| reflexivity].
  destruct (last_of _) as [src|]; [| reflexivity].
  unfold lift. destruct (filename self) as [target|e]; reflexivity.
Qed.

(** When promotion is required: no sibling of the tier, or the newest one
    lies in another period. *)
Lemma promotion_needed_true E n (existing : list string) :
  (existing = []
   \/ exists newest lb n',
        last_of existing = Some newest
        /\ Backup_of_filename E newest = Ok lb
        /\ week_number lb = Ok n' /\ n' <> n) ->
  promotion_needed E week_number n existing = Ok true.
Proof.
  unfold promotion_needed.
  intros [-> | (newest & lb & n' & Hl & Hb & Hw & Hne)]; [reflexivity |].
  rewrite Hl, Hb. cbn [bind]. rewrite Hw. cbn [bind].
  now rewrite bool_decide_eq_false_2.
Qed.

Lemma promotion_needed_false E n (existing : list string) newest lb :
  last_of existing = Some newest ->
  Backup_of_filename E newest = Ok lb ->
  week_number lb = Ok n ->
  promotion_needed E week_number n existing = Ok false.
Proof.
  unfold promotion_needed. intros Hl Hb Hw.
  rewrite Hl, Hb. cbn [bind]. rewrite Hw. cbn [bind].
  now rewrite bool_decide_eq_true_2.
Qed.

(** When the most recent weekly sibling lies in the ISO (year, week) of
    the identity's date, [do_promotion] returns without changing the
    directory and without calling a dump tool. *)
Lemma promotion_is_noop_within_the_week E self w n mask newest lb :
  backup_type self = "weekly" ->
  week_number self = Ok n ->
  filename_with_date_masked E self None = Ok mask ->
  last_of (sort_files (glob E (files w) mask)) = Some newest ->
  Backup_of_filename E newest = Ok lb ->
  week_number lb = Ok n ->
  do_promotion E self w = (Ok tt, w).
Proof.
  intros Ht Hn Hm Hl Hb Hw.
  rewrite (do_promotion_weekly E self w n mask Ht Hn Hm).
  now rewrite (promotion_needed_false E n _ newest lb Hl Hb Hw).
Qed.

(** C4: for a weekly identity with the daily tier enabled, when promotion
    is required (no weekly sibling, or the most recent one in another ISO
    week) and no daily sibling exists, [backup] raises the [RuntimeError]
    that names the daily mask; no dump tool is called and the directory is
    unchanged. *)
Theorem backup_raises_without_daily_sibling
    E self days weeks months w n mask dmask :
  backup_type self = "weekly" ->
  py_truthy days = true ->
  week_number self = Ok n ->
  filename_with_date_masked E self None = Ok mask ->
  filename_with_date_masked E self (Some "daily") = Ok dmask ->
  (glob E (files w) mask = []
   \/ exists newest lb n',
        last_of (sort_files (glob E (files w) mask)) = Some newest
        /\ Backup_of_filename E newest = Ok lb
        /\ week_number lb = Ok n' /\ n' <> n) ->
  glob E (files w) dmask = [] ->
  backup E self days weeks months w
  = (Raise (RuntimeError (ExpectedDailyBackups dmask)), w).
Proof.
  intros Ht Hd Hn Hm Hdm Hreq Hnone.
  unfold backup, has_promotable_more_granular_backups, mbind.
  rewrite Ht, String.eqb_refl, Hd.
  rewrite (do_promotion_weekly E self w n mask Ht Hn Hm).
  rewrite promotion_needed_true.
  - rewrite Hdm, Hnone. reflexivity.
  - destruct Hreq as [Hempty | Hlast]; [left | right; exact Hlast].
    now rewrite Hempty.
Qed.

Lemma backup_raises_without_daily_sibling_witness :
  backup sample_env sample_weekly (PyStr "7") (PyStr "4") (PyStr "0")
    (mkWorld ∅ [])
  = (Raise (RuntimeError (ExpectedDailyBackups daily_mask)), mkWorld ∅ []).
Proof.
  apply (backup_raises_without_daily_sibling sample_env sample_weekly
           (PyStr "7") (PyStr "4") (PyStr "0") (mkWorld ∅ []) (2016, 1)
           weekly_mask daily_mask).
  - reflexivity.
  - reflexivity.
  - vm_compute; reflexivity.
  - vm_compute; reflexivity.
  - vm_compute; reflexivity.
  - left. vm_compute; reflexivity.
  - vm_compute; reflexivity.
Defined.

(** C2, as amended: for a weekly identity whose own path does not exist
    yet, if no weekly sibling exists (or the most recent one lies in
    another ISO week) and at least one daily sibling exists, then
    [do_promotion] binds the weekly path to the file of the greatest daily
    sibling, changes nothing else in the directory, and calls no dump
    tool. *)
Theorem promotion_links_greatest_daily E self w n mask dmask target :
  backup_type self = "weekly" ->
  week_number self = Ok n ->
  filename_with_date_masked E self None = Ok mask ->
  filename_with_date_masked E self (Some "daily") = Ok dmask ->
  filename self = Ok target ->
  (glob E (files w) mask = []
   \/ exists newest lb n',
        last_of (sort_files (glob E (files w) mask)) = Some newest
        /\ Backup_of_filename E newest = Ok lb
        /\ week_number lb = Ok n' /\ n' <> n) ->
  glob E (files w) dmask <> [] ->
  files w !! target = None ->
  exists src inode,
    src ∈ glob E (files w) dmask
    /\ (forall p, p ∈ glob E (files w) dmask -> Str.le p src)
    /\ files w !! src = Some inode
    /\ do_promotion E self w
       = (Ok tt, mkWorld (<[target := inode]> (files w)) (calls w)).
Proof.
  intros Ht Hn Hm Hdm Hf Hreq Hsome Habsent.
  destruct (last_of (sort_files (glob E (files w) dmask))) as [src|] eqn:Hl.
  2:{ unfold last_of in Hl. apply last_None in Hl.
      apply (proj1 (sort_files_nil _)) in Hl. contradiction. }
  destruct (last_sort_files_greatest _ _ Hl) as [Hin Hmax].
  pose proof Hin as Hex. apply glob_elem in Hex as [[inode Hino] _].
  exists src, inode. repeat split; try assumption.
  rewrite (do_promotion_weekly E self w n mask Ht Hn Hm).
  rewrite promotion_needed_true.
  - rewrite Hdm, Hl, Hf. unfold os_link. now rewrite Hino, Habsent.
  - destruct Hreq as [Hempty | Hlast]; [left | right; exact Hlast].
    now rewrite Hempty.
Qed.

Lemma promotion_links_greatest_daily_witness :
  exists src inode,
    src ∈ glob sample_env week1_dailies daily_mask
    /\ (forall p, p ∈ glob sample_env week1_dailies daily_mask ->
                  Str.le p src)
    /\ week1_dailies !! src = Some inode
    /\ do_promotion sample_env sample_weekly (mkWorld week1_dailies [])
       = (Ok tt, mkWorld (<[weekly_name "08" := inode]> week1_dailies) []).
Proof.
  apply (promotion_links_greatest_daily sample_env sample_weekly
           (mkWorld week1_dailies []) (2016, 1) weekly_mask daily_mask
           (weekly_name "08")).
  - reflexivity.
  - vm_compute; reflexivity.
  - vm_compute; reflexivity.
  - vm_compute; reflexivity.
  - vm_compute; reflexivity.
  - left. vm_compute; reflexivity.
  - vm_compute; discriminate.
  - vm_compute; reflexivity.
Defined.

(** C2, as stated, fails: with dailies for 2016-01-04 .. 2016-01-08, a
    weekly artifact for 2016-01-08 and one dated 2016-01-15, the most
    recent weekly sibling lies in ISO week 2 and not in week 1 of
    2016-01-08, and daily siblings exist; yet [do_promotion] for
    2016-01-08 creates no link: [os.link] raises [FileExistsError] and the
    directory is unchanged. *)
Lemma promotion_fails_when_weekly_path_exists :
  backup_type sample_weekly = "weekly"
  /\ week_number sample_weekly = Ok (2016, 1)
  /\ last_of (sort_files (glob sample_env week1_and_later weekly_mask))
     = Some (weekly_name "15")
  /\ (exists lb, Backup_of_filename sample_env (weekly_name "15") = Ok lb
                 /\ week_number lb = Ok (2016, 2))
  /\ glob sample_env week1_and_later daily_mask <> []
  /\ do_promotion sample_env sample_weekly (mkWorld week1_and_later [])
     = (Raise (FileExistsError (weekly_name "08")),
        mkWorld week1_and_later []).
Proof.
  split; [reflexivity |].
  split; [vm_compute; reflexivity |].
  split; [vm_compute; reflexivity |].
  split; [eexists; split; [vm_compute; reflexivity | vm_compute; reflexivity] |].
  split; [vm_compute; discriminate |].
  vm_compute; reflexivity.
Qed.

(** ** Expiration *)

(** C10: with a keep count of 0 for the identity's tier, [expire] unlinks
    nothing: the directory and the record of tool calls are as before, and
    [expire] returns normally whenever its mask can be built. *)
Theorem expire_keep_zero_deletes_nothing E self days weeks months w :
  num_to_keep self days weeks months = Ok 0 ->
  snd (expire E self days weeks months w) = w
  /\ (forall pattern,
        expire_pattern E self = Ok pattern ->
        expire E self days weeks months w = (Ok tt, w)).
Proof.
  intros Hk.
  assert (Hrun : forall pattern,
             expire_pattern E self = Ok pattern ->
             expire E self days weeks months w = (Ok tt, w)).
  { intros pattern Hp.
    rewrite (expire_run E _ days weeks months _ pattern 0 Hp Hk).
    now rewrite slice_to_zero. }
  split; [| exact Hrun].
  destruct (expire_pattern E self) as [pattern|e] eqn:Hp.
  - now rewrite (Hrun pattern).
  - unfold expire, mbind, lift. now rewrite Hp.
Qed.

Lemma expire_keep_zero_deletes_nothing_witness :
  snd (expire sample_env sample_all_daily (PyStr "0") (PyStr "4")
         (PyStr "6") (mkWorld week1_dailies []))
  = mkWorld week1_dailies []
  /\ (forall pattern,
        expire_pattern sample_env sample_all_daily = Ok pattern ->
        expire sample_env sample_all_daily (PyStr "0") (PyStr "4")
          (PyStr "6") (mkWorld week1_dailies [])
        = (Ok tt, mkWorld week1_dailies [])).
Proof.
  apply (expire_keep_zero_deletes_nothing sample_env sample_all_daily
           (PyStr "0") (PyStr "4") (PyStr "6") (mkWorld week1_dailies [])).
  reflexivity.
Defined.

(** ** Monthly promotion *)

Lemma do_promotion_monthly E self w n mask :
  backup_type self = "monthly" ->
  month_number self = Ok n ->
  filename_with_date_masked E self None = Ok mask ->
  do_promotion E self w
  = match promotion_needed E month_number n
            (sort_files (glob E (files w) mask)) with
    | Raise e => (Raise e, w)
    | Ok false => (Ok tt, w)
    | Ok true =>
        match filename_with_date_masked E self (Some "weekly") with
        | Raise e => (Raise e, w)
        | Ok wmask =>
            match last_of (sort_files (glob E (files w) wmask)) with
            | None => (Raise (RuntimeError (ExpectedWeeklyBackups wmask)), w)
            | Some src =>
                match filename self with
                | Raise e => (Raise e, w)
                | Ok target => os_link src target w
                end
            end
        end
    end.
Proof.
  intros Ht Hn Hm. unfold do_promotion. rewrite Ht.
  change (String.eqb "monthly" "weekly") with false.
  rewrite String.eqb_refl.
  unfold promote_from, mbind, lift, sorted_files, ret.
  rewrite Hn, Hm.
  destruct (promotion_needed E month_number n _) as [[|]|e];
    try reflexivity.
  destruct (filename_with_date_masked E self (Some "weekly")) as [wmask|e];
    [| reflexivity].
  destruct (last_of _) as [src|]; [| reflexivity].
  unfold lift. destruct (filename self) as [target|e]; reflexivity.
Qed.

Lemma promotion_needed_yes E period n (existing : list string) :
  (existing = []
   \/ exists newest lb n',
        last_of existing = Some newest
        /\ Backup_of_filename E newest = Ok lb
        /\ period lb = Ok n' /\ n' <> n) ->
  promotion_needed E period n existing = Ok true.
Proof.
  unfold promotion_needed.
  intros [-> | (newest & lb & n' & Hl & Hb & Hw & Hne)]; [reflexivity |].
  rewrite Hl, Hb. cbn [bind]. rewrite Hw. cbn [bind].
  now rewrite bool_decide_eq_false_2.
Qed.

Lemma promotion_needed_no E period n (existing : list string) newest lb :
  last_of existing = Some newest ->
  Backup_of_filename E newest = Ok lb ->
  period lb = Ok n ->
  promotion_needed E period n existing = Ok false.
Proof.
  unfold promotion_needed. intros Hl Hb Hw.
  rewrite Hl, Hb. cbn [bind]. rewrite Hw. cbn [bind].
  now rewrite bool_decide_eq_true_2.
Qed.

(** When the most recent monthly sibling lies in the (year, month) of the
    identity's date, [do_promotion] changes nothing and calls no tool. *)
Theorem monthly_promotion_is_noop_within_the_month
    E self w n mask newest lb :
  backup_type self = "monthly" ->
  month_number self = Ok n ->
  filename_with_date_masked E self None = Ok mask ->
  last_of (sort_files (glob E (files w) mask)) = Some newest ->
  Backup_of_filename E newest = Ok lb ->
  month_number lb = Ok n ->
  do_promotion E self w = (Ok tt, w).
Proof.
  intros Ht Hn Hm Hl Hb Hw.
  rewrite (do_promotion_monthly E self w n mask Ht Hn Hm).
  now rewrite (promotion_needed_no E month_number n _ newest lb Hl Hb Hw).
Qed.

Lemma monthly_promotion_is_noop_within_the_month_witness :
  do_promotion sample_env (with_date sample_monthly "2016-01-31")
    (mkWorld january_promoted [])
  = (Ok tt, mkWorld january_promoted []).
Proof.
  eapply (monthly_promotion_is_noop_within_the_month sample_env
            (with_date sample_monthly "2016-01-31")
            (mkWorld january_promoted []) (2016, 1) monthly_mask
            (monthly_name "08")).
  - reflexivity.
  - vm_compute; reflexivity.
  - vm_compute; reflexivity.
  - vm_compute; reflexivity.
  - vm_compute; reflexivity.
  - vm_compute; reflexivity.
Defined.

(** For a monthly identity whose own path does not exist yet: when no
    monthly sibling exists, or the most recent one lies in another (year,
    month), and a weekly sibling exists, [do_promotion] binds the monthly
    path to the file of the greatest weekly sibling, changes nothing else,
    and calls no tool. *)
Theorem monthly_promotion_links_greatest_weekly
    E self w n mask wmask target :
  backup_type self = "monthly" ->
  month_number self = Ok n ->
  filename_with_date_masked E self None = Ok mask ->
  filename_with_date_masked E self (Some "weekly") = Ok wmask ->
  filename self = Ok target ->
  (glob E (files w) mask = []
   \/ exists newest lb n',
        last_of (sort_files (glob E (files w) mask)) = Some newest
        /\ Backup_of_filename E newest = Ok lb
        /\ month_number lb = Ok n' /\ n' <> n) ->
  glob E (files w) wmask <> [] ->
  files w !! target = None ->
  exists src inode,
    src ∈ glob E (files w) wmask
    /\ (forall p, p ∈ glob E (files w) wmask -> Str.le p src)
    /\ files w !! src = Some inode
    /\ do_promotion E self w
       = (Ok tt, mkWorld (<[target := inode]> (files w)) (calls w)).
Proof.
  intros Ht Hn Hm Hwm Hf Hreq Hsome Habsent.
  destruct (last_of (sort_files (glob E (files w) wmask))) as [src|] eqn:Hl.
  2:{ unfold last_of in Hl. apply last_None in Hl.
      apply (proj1 (sort_files_nil _)) in Hl. contradiction. }
  destruct (last_sort_files_greatest _ _ Hl) as [Hin Hmax].
  pose proof Hin as Hex. apply glob_elem in Hex as [[inode Hino] _].
  exists src, inode. repeat split; try assumption.
  rewrite (do_promotion_monthly E self w n mask Ht Hn Hm).
  rewrite promotion_needed_yes.
  - rewrite Hwm, Hl, Hf. unfold os_link. now rewrite Hino, Habsent.
  - destruct Hreq as [Hempty | Hlast]; [left | right; exact Hlast].
    now rewrite Hempty.
Qed.

Lemma monthly_promotion_links_greatest_weekly_witness :
  exists src inode,
    src ∈ glob sample_env week1_promoted weekly_mask
    /\ (forall p, p ∈ glob sample_env week1_promoted weekly_mask ->
                  Str.le p src)
    /\ week1_promoted !! src = Some inode
    /\ do_promotion sample_env sample_monthly (mkWorld week1_promoted [])
       = (Ok tt, mkWorld (<[monthly_name "08" := inode]> week1_promoted) []).
Proof.
  apply (monthly_promotion_links_greatest_weekly sample_env sample_monthly
           (mkWorld week1_promoted []) (2016, 1) monthly_mask weekly_mask
           (monthly_name "08")).
  - reflexivity.
  - vm_compute; reflexivity.
  - vm_compute; reflexivity.
  - vm_compute; reflexivity.
  - vm_compute; reflexivity.
  - left. vm_compute; reflexivity.
  - vm_compute; discriminate.
  - vm_compute; reflexivity.
Defined.

(** A monthly backup with the weekly tier enabled, promotion required and
    no weekly sibling raises the [RuntimeError] that names the weekly mask;
    nothing is dumped, linked or expired. *)
Theorem backup_raises_without_weekly_sibling
    E self days weeks months w n mask wmask :
  backup_type self = "monthly" ->
  py_truthy weeks = true ->
  month_number self = Ok n ->
  filename_with_date_masked E self None = Ok mask ->
  filename_with_date_masked E self (Some "weekly") = Ok wmask ->
  (glob E (files w) mask = []
   \/ exists newest lb n',
        last_of (sort_files (glob E (files w) mask)) = Some newest
        /\ Backup_of_filename E newest = Ok lb
        /\ month_number lb = Ok n' /\ n' <> n) ->
  glob E (files w) wmask = [] ->
  backup E self days weeks months w
  = (Raise (RuntimeError (ExpectedWeeklyBackups wmask)), w).
Proof.
  intros Ht Hd Hn Hm Hwm Hreq Hnone.
  unfold backup, has_promotable_more_granular_backups, mbind.
  rewrite Ht. change (String.eqb "monthly" "weekly") with false.
  rewrite String.eqb_refl, Hd.
  rewrite (do_promotion_monthly E self w n mask Ht Hn Hm).
  rewrite promotion_needed_yes.
  - rewrite Hwm, Hnone. reflexivity.
  - destruct Hreq as [Hempty | Hlast]; [left | right; exact Hlast].
    now rewrite Hempty.
Qed.

Lemma backup_raises_without_weekly_sibling_witness :
  backup sample_env sample_monthly (PyStr "7") (PyStr "4") (PyStr "6")
    (mkWorld week1_dailies [])
  = (Raise (RuntimeError (ExpectedWeeklyBackups weekly_mask)),
     mkWorld week1_dailies []).
Proof.
  apply (backup_raises_without_weekly_sibling sample_env sample_monthly
           (PyStr "7") (PyStr "4") (PyStr "6") (mkWorld week1_dailies [])
           (2016, 1) monthly_mask weekly_mask).
  - reflexivity.
  - reflexivity.
  - vm_compute; reflexivity.
  - vm_compute; reflexivity.
  - vm_compute; reflexivity.
  - left. vm_compute; reflexivity.
  - vm_compute; reflexivity.
Defined.

(** ** What promotion and expiration never do *)

Lemma promote_from_cases E self period finer missing w :
  snd (promote_from E self period finer missing w) = w
  \/ exists src target inode,
       files w !! src = Some inode /\ files w !! target = None
       /\ promote_from E self period finer missing w
          = (Ok tt, mkWorld (<[target := inode]> (files w)) (calls w)).
Proof.
  unfold promote_from, mbind, lift, sorted_files, ret.
  destruct (period self) as [n|e]; [| now left].
  destruct (filename_with_date_masked E self None) as [mask|e]; [| now left].
  destruct (promotion_needed E period n _) as [[|]|e]; try (now left).
  destruct (filename_with_date_masked E self (Some finer)) as [fmask|e];
    [| now left].
  destruct (last_of _) as [src|]; [| now left].
  unfold lift. destruct (filename self) as [target|e]; [| now left].
  unfold os_link.
  destruct (files w !! src) as [inode|] eqn:Hs; [| now left].
  destruct (files w !! target) as [other|] eqn:Ht; [now left |].
  right. exists src, target, inode. auto.
Qed.

(** [do_promotion] either leaves the directory and the record of tool
    calls as they are, or it returns normally having added one new path,
    bound to the file of a path that exists; it never removes or rebinds a
    path and never calls a dump tool. *)
Theorem promotion_only_adds_one_link E self w :
  snd (do_promotion E self w) = w
  \/ exists src target inode,
       files w !! src = Some inode /\ files w !! target = None
       /\ do_promotion E self w
          = (Ok tt, mkWorld (<[target := inode]> (files w)) (calls w)).
Proof.
  unfold do_promotion.
  destruct (String.eqb (backup_type self) "weekly");
    [apply promote_from_cases |].
  destruct (String.eqb (backup_type self) "monthly");
    [apply promote_from_cases | now left].
Qed.

Lemma slice_to_is_take (stop : Z) (l : list string) :
  exists k, slice_to stop l = take k l.
Proof. unfold slice_to. eauto. Qed.

(** [expire] for a mask and a count that are defined. *)
Lemma expire_deletes_slice E self days weeks months w pattern keep :
  expire_pattern E self = Ok pattern ->
  num_to_keep self days weeks months = Ok keep ->
  let expired := slice_to (- keep) (sort_files (glob E (files w) pattern)) in
  exists fs',
    expire E self days weeks months w = (Ok tt, mkWorld fs' (calls w))
    /\ (forall p, p ∈ expired -> fs' !! p = None)
    /\ (forall p, p ∉ expired -> fs' !! p = files w !! p).
Proof.
  intros Hp Hk expired.
  rewrite (expire_run E _ days weeks months _ pattern keep Hp Hk).
  fold expired.
  destruct (slice_to_is_take (- keep)
              (sort_files (glob E (files w) pattern))) as [k Hk'].
  fold expired in Hk'.
  pose proof (sort_glob_NoDup E (files w) pattern) as Hnd.
  destruct (NoDup_take_drop _ k Hnd) as (Hnt & _ & _ & Hsplit).
  rewrite <- Hk' in Hnt.
  destruct w as [fs c]. cbn [files calls] in *.
  apply unlink_all_spec; [exact Hnt |].
  intros p Hin. rewrite Hk' in Hin.
  assert (Hm : p ∈ sort_files (glob E fs pattern))
    by (apply Hsplit; now left).
  apply sort_files_elem, glob_elem in Hm. tauto.
Qed.


(** ** Objects decoded from a file name *)

Lemma Backup_of_filename_inv E f p :
  Backup_of_filename E f = Ok p ->
  exists dir base h po db s d t x,
    OsPath.split f = (dir, base)
    /\ Str.split Str.dot base = [h; po; db; s; d; t; x]
    /\ Date.strptime d <> None
    /\ In t BACKUP_TYPES
    /\ In x [GLOBALS_SUFFIX; REGULAR_SUFFIX]
    /\ p = mkBackup dir
             (<["hostname" := Some h]>
                (<["port" := Some po]> (<["username" := None]> ∅)))
             h po db s d t None None None.
Proof.
  destruct f as [|c f]; [discriminate |].
  rewrite Backup_of_filename_parse by reflexivity.
  unfold parse_filename.
  destruct (OsPath.split (String c f)) as [dir base].
  destruct (Str.split Str.dot base)
    as [|h [|po [|db [|s [|d [|t [|x [|y l]]]]]]]] eqn:Hs;
    try discriminate.
  unfold validate_backup_type.
  destruct (Date.strptime d) as [dt|] eqn:Hd; [| discriminate].
  destruct (in_list t BACKUP_TYPES) eqn:Ht; [| discriminate]. cbn [bind].
  destruct (in_list x [GLOBALS_SUFFIX; REGULAR_SUFFIX]) eqn:Hx;
    [| discriminate].
  intros H. injection H as <-.
  exists dir, base, h, po, db, s, d, t, x.
  apply in_list_iff in Ht, Hx. repeat split; auto. congruence.
Qed.

Lemma decoded_schema_spec E f p :
  Backup_of_filename E f = Ok p -> schema_spec p = None.
Proof.
  intros H.
  destruct (Backup_of_filename_inv E f p H)
    as (dir & base & h & po & db & s & d & t & x & _ & _ & _ & _ & _ & ->).
  reflexivity.
Qed.

Lemma expire_without_schema_spec E p days weeks months w :
  schema_spec p = None ->
  expire E p days weeks months w = (Raise (AttributeError "schema_spec"), w).
Proof.
  intros H. unfold expire, mbind, lift, expire_pattern. now rewrite H.
Qed.

(** An object decoded from a file name lacks [schema_spec]: [expire]
    raises [AttributeError] on it before it looks at the directory. *)
Theorem expire_of_decoded_object_raises E f p days weeks months w :
  Backup_of_filename E f = Ok p ->
  expire E p days weeks months w = (Raise (AttributeError "schema_spec"), w).
Proof.
  intros H. apply expire_without_schema_spec.
  now apply (decoded_schema_spec E f).
Qed.

Lemma expire_of_decoded_object_raises_witness :
  expire sample_env (parsed_from "/backups" sample_weekly)
    (PyStr "7") (PyStr "4") (PyStr "6") (mkWorld week1_promoted [])
  = (Raise (AttributeError "schema_spec"), mkWorld week1_promoted []).
Proof.
  apply (expire_of_decoded_object_raises sample_env (weekly_name "08")).
  vm_compute; reflexivity.
Defined.

(** [backup] never completes on an object decoded from a file name:
    whatever the directory and the counts are, it ends in an exception (at
    the latest in [expire]). *)
Theorem backup_of_decoded_object_never_completes
    E f p days weeks months w :
  Backup_of_filename E f = Ok p ->
  exists e, fst (backup E p days weeks months w) = Raise e.
Proof.
  intros H. unfold backup, mbind.
  match goal with
  | |- context [match ?m w with _ => _ end] => destruct (m w) as [[[]|e] w']
  end.
  - rewrite (expire_without_schema_spec E p _ _ _ w'
               (decoded_schema_spec E f p H)). eauto.
  - eauto.
Qed.

Lemma backup_of_decoded_object_never_completes_witness :
  exists e,
    fst (backup sample_env (parsed_from "/backups" sample_weekly)
           (PyStr "7") (PyStr "4") (PyStr "6") (mkWorld week1_dailies []))
    = Raise e.
Proof.
  apply (backup_of_decoded_object_never_completes sample_env
           (weekly_name "08")).
  vm_compute; reflexivity.
Defined.

(** ** Paths that [os.path.split] returns *)

Lemma rstrip_all c s : Str.all_char c s = true -> Str.rstrip c s = "".
Proof.
  induction s as [|a s IH]; [reflexivity |]. cbn [Str.all_char Str.rstrip].
  intros H. apply andb_true_iff in H as [Ha Hs].
  now rewrite (IH Hs), Ha.
Qed.

Lemma rstrip_not_all c s :
  Str.all_char c s = false ->
  Str.rstrip c s <> "" /\ Str.endswith c (Str.rstrip c s) = false
  /\ Str.all_char c (Str.rstrip c s) = false.
Proof.
  induction s as [|a s IH]; [discriminate |].
  cbn [Str.all_char Str.rstrip]. intros H.
  destruct (Str.all_char c s) eqn:Hs.
  - rewrite andb_true_r in H. rewrite (rstrip_all c s Hs), H.
    cbn [Str.endswith Str.all_char]. rewrite H. auto.
  - destruct (IH eq_refl) as (Hne & He & Ha).
    destruct (Str.rstrip c s) as [|b r] eqn:Hr; [congruence |].
    repeat split; [discriminate | exact He |].
    cbn [Str.all_char] in *. rewrite Ha. apply andb_false_r.
Qed.

Lemma rstrip_app_sep c s : Str.rstrip c (s +:+ String c "") = Str.rstrip c s.
Proof.
  induction s as [|a s IH].
  - cbn. now rewrite Ascii.eqb_refl.
  - cbn [String.append Str.rstrip]. now rewrite IH.
Qed.

Lemma rstrip_fixed c s : Str.endswith c s = false -> Str.rstrip c s = s.
Proof.
  induction s as [|a s IH]; [reflexivity |].
  cbn [Str.endswith Str.rstrip]. destruct s as [|b s].
  - intros H. cbn. now rewrite H.
  - intros H. now rewrite (IH H).
Qed.

Lemma all_char_endswith c s :
  Str.all_char c s = true -> s <> "" -> Str.endswith c s = true.
Proof.
  induction s as [|a s IH]; [congruence |].
  cbn [Str.all_char Str.endswith]. intros H _.
  apply andb_true_iff in H as [Ha Hs].
  destruct s as [|b s]; [exact Ha |]. now apply IH.
Qed.

Lemma all_char_app c (a b : string) :
  Str.all_char c (a +:+ b) = Str.all_char c a && Str.all_char c b.
Proof.
  induction a as [|x a IH]; [reflexivity |].
  cbn [String.append Str.all_char]. now rewrite IH, andb_assoc.
Qed.

Lemma startswith_contains c s :
  Str.contains c s = false -> Str.startswith c s = false.
Proof.
  destruct s as [|a s]; [reflexivity |]. cbn.
  now destruct (Ascii.eqb a c).
Qed.

Lemma cut_inv f h t :
  OsPath.cut f = (h, t) ->
  Str.contains Str.slash t = false
  /\ (h = "" \/ Str.endswith Str.slash h = true).
Proof.
  revert h t. induction f as [|a f IH]; intros h t.
  - cbn. intros [= <- <-]. auto.
  - cbn [OsPath.cut]. destruct (OsPath.cut f) as [h' t'].
    destruct (IH h' t' eq_refl) as [Ht' Hh'].
    destruct h' as [|b h'].
    + destruct (Ascii.eqb a Str.slash) eqn:Ha; intros [= <- <-].
      * split; [exact Ht' | right]. cbn. exact Ha.
      * split; [| now left]. cbn. now rewrite Ha.
    + intros [= <- <-]. split; [exact Ht' | right].
      destruct Hh' as [Hh' | Hh']; [discriminate | exact Hh'].
Qed.

(** The head that [os.path.split] returns consists of slashes only or
    does not end in one; its tail holds no slash. *)
Lemma split_inv f dir base :
  OsPath.split f = (dir, base) ->
  Str.contains Str.slash base = false
  /\ (Str.all_char Str.slash dir = true
      \/ Str.endswith Str.slash dir = false).
Proof.
  unfold OsPath.split. destruct (OsPath.cut f) as [h t] eqn:Hc.
  destruct (cut_inv f h t Hc) as [Ht Hh].
  destruct (Str.truthy h && negb (Str.all_char Str.slash h)) eqn:Hn;
    intros [= <- <-]; (split; [exact Ht |]).
  - apply andb_true_iff in Hn as [_ Hn]. apply negb_true_iff in Hn.
    right. now apply rstrip_not_all.
  - apply andb_false_iff in Hn as [Hn | Hn].
    + destruct h; [now left | discriminate].
    + apply negb_false_iff in Hn. now left.
Qed.

(** Joining such a head with a tail without slashes and splitting again
    gives the two back. *)
Lemma split_join_normal dir base :
  Str.all_char Str.slash dir = true \/ Str.endswith Str.slash dir = false ->
  Str.contains Str.slash base = false ->
  OsPath.split (OsPath.join dir base) = (dir, base).
Proof.
  intros Hdir Hbase. unfold OsPath.join.
  rewrite (startswith_contains _ _ Hbase).
  destruct (Str.all_char Str.slash dir) eqn:Hall.
  - destruct dir as [|a dir].
    + cbn [Str.truthy negb orb String.append]. unfold OsPath.split.
      now rewrite (cut_no_slash base Hbase).
    + assert (He : Str.endswith Str.slash (String a dir) = true)
        by now apply all_char_endswith.
      rewrite He, orb_true_r.
      destruct (endswith_app _ _ He) as [pre Hpre].
      unfold OsPath.split. rewrite Hpre, append_assoc_str.
      cbn [String.append]. rewrite (cut_app_slash pre base Hbase).
      rewrite <- Hpre. cbn [Str.truthy]. rewrite Hall. reflexivity.
  - destruct Hdir as [Hdir | Hend]; [discriminate |].
    assert (Hne : Str.truthy dir = true) by (destruct dir; [discriminate | reflexivity]).
    rewrite Hne, Hend. cbn [negb orb].
    unfold OsPath.split. rewrite (cut_app_slash dir base Hbase).
    rewrite truthy_app_r by reflexivity.
    rewrite all_char_app, Hall. cbn [andb negb].
    now rewrite rstrip_app_sep, rstrip_fixed.
Qed.

Lemma split_pieces_clean c s :
  Forall (fun x => Str.contains c x = false) (Str.split c s).
Proof.
  induction s as [|a s IH]; [repeat constructor |].
  cbn [Str.split]. destruct (Ascii.eqb a c) eqn:Ha.
  - constructor; [reflexivity | exact IH].
  - destruct (Str.split c s) as [|h t]; [repeat constructor; cbn; now rewrite Ha |].
    inversion IH as [|? ? Hh Ht]; subst.
    constructor; [| exact Ht]. cbn. now rewrite Ha.
Qed.

Lemma split_pieces_without c c' s :
  Str.contains c' s = false ->
  Forall (fun x => Str.contains c' x = false) (Str.split c s).
Proof.
  induction s as [|a s IH]; [repeat constructor |].
  cbn [Str.contains Str.split]. destruct (Ascii.eqb a c') eqn:Ha';
    [discriminate |].
  intros Hs. specialize (IH Hs). destruct (Ascii.eqb a c).
  - constructor; [reflexivity | exact IH].
  - destruct (Str.split c s) as [|h t];
      [repeat constructor; cbn; now rewrite Ha' |].
    inversion IH as [|? ? Hh Ht]; subst.
    constructor; [| exact Ht]. cbn. now rewrite Ha'.
Qed.

(** Decoding the name of an identity whose directory is one that
    [os.path.split] returns gives that directory back. *)
Lemma parse_filename_normal b :
  Str.all_char Str.slash (backup_dir b) = true
  \/ Str.endswith Str.slash (backup_dir b) = false ->
  Forall (fun s => Str.contains Str.dot s = false) (six_fields b) ->
  Forall (fun s => Str.contains Str.slash s = false) (six_fields b) ->
  Date.strptime (date b) <> None ->
  In (backup_type b) BACKUP_TYPES ->
  parse_filename (OsPath.join (backup_dir b) (base_filename b))
  = Ok (parsed_from (backup_dir b) b).
Proof.
  intros Hdir Hdot Hslash Hdate Htype. unfold parse_filename.
  rewrite (split_join_normal _ _ Hdir (base_filename_no_slash b Hslash)).
  rewrite (split_base_filename b Hdot). cbn [six_fields app].
  destruct (Date.strptime (date b)); [| congruence].
  apply validate_backup_type_ok in Htype. rewrite Htype. cbn [bind].
  rewrite suffix_known. reflexivity.
Qed.

(** Decoding is stable: the object decoded from a file name encodes to a
    file name again, and decoding that name gives the same object, field
    for field. *)
Theorem decode_encode_decode E f p :
  Backup_of_filename E f = Ok p ->
  exists g, filename p = Ok g /\ Backup_of_filename E g = Ok p.
Proof.
  intros H.
  destruct (Backup_of_filename_inv E f p H)
    as (dir & base & h & po & db & s & d & t & x
        & Hsplit & Hparts & Hdate & Htype & _ & Hp).
  destruct (split_inv f dir base Hsplit) as [Hbase Hdir].
  assert (Hdot : Forall (fun s => Str.contains Str.dot s = false)
                   (six_fields p)).
  { pose proof (split_pieces_clean Str.dot base) as Hc.
    rewrite Hparts in Hc. subst p. cbn [six_fields hostname_label port_label
      database_label schema_label date backup_type].
    repeat match goal with
           | Hc : Forall _ (_ :: _) |- _ =>
               apply Forall_cons in Hc as [? Hc]
           end.
    repeat constructor; assumption. }
  assert (Hslash : Forall (fun s => Str.contains Str.slash s = false)
                     (six_fields p)).
  { pose proof (split_pieces_without Str.dot Str.slash base Hbase) as Hc.
    rewrite Hparts in Hc. subst p. cbn [six_fields hostname_label port_label
      database_label schema_label date backup_type].
    repeat match goal with
           | Hc : Forall _ (_ :: _) |- _ =>
               apply Forall_cons in Hc as [? Hc]
           end.
    repeat constructor; assumption. }
  exists (OsPath.join (backup_dir p) (base_filename p)).
  split; [now apply filename_ok |].
  rewrite Backup_of_filename_parse
    by apply join_truthy, base_filename_truthy.
  rewrite parse_filename_normal; try assumption.
  - subst p. reflexivity.
  - subst p. exact Hdir.
  - subst p. exact Hdate.
  - subst p. exact Htype.
Qed.

Lemma decode_encode_decode_witness :
  exists g,
    filename (parsed_from "/backups" sample_weekly) = Ok g
    /\ Backup_of_filename sample_env g
       = Ok (parsed_from "/backups" sample_weekly).
Proof.
  apply (decode_encode_decode sample_env
           "/backups//db1.5432.test.all_schemas.2016-01-08.weekly.sql").
  vm_compute; reflexivity.
Defined.

(** ** Identities that the constructor builds *)

Lemma opt_truthy_default o :
  opt_truthy o = true -> Str.truthy (default "" o) = true /\ o = Some (default "" o).
Proof. destruct o as [s|]; [auto | discriminate]. Qed.

Lemma database_label_truthy db : Str.truthy (Label.database_label db) = true.
Proof.
  unfold Label.database_label. destruct (opt_truthy db) eqn:H; [| reflexivity].
  now apply opt_truthy_default.
Qed.

Lemma database_label_idem db :
  Label.database_label (Some (Label.database_label db))
  = Label.database_label db.
Proof.
  unfold Label.database_label at 1. cbn [opt_truthy default].
  now rewrite database_label_truthy.
Qed.

Lemma backup_type_truthy t : In t BACKUP_TYPES -> Str.truthy t = true.
Proof.
  intros H. cbn in H. repeat destruct H as [<- | H]; try reflexivity.
  contradiction.
Qed.

Lemma prospective_dir_truthy E dir type db spec ci today emp b :
  prospective E dir type db spec ci today emp = Ok b ->
  Str.truthy (backup_dir b) = true.
Proof.
  intros H.
  destruct (prospective_inv _ _ _ _ _ _ _ _ _ H)
    as (label & names & _ & _ & _ & _ & ->). cbn [backup_dir].
  unfold prospective in H.
  destruct (opt_truthy dir) eqn:Hd; [now apply opt_truthy_default |].
  destruct (bool_decide (type = Some "globals")); discriminate H.
Qed.

(** The sanity check of [filename] never fires on an identity the
    constructor built: the name is defined and its base name has exactly
    six periods. *)
Theorem filename_of_constructed_identity
    E dir type db spec ci today emp b :
  prospective E dir type db spec ci today emp = Ok b ->
  filename b = Ok (OsPath.join (backup_dir b) (base_filename b))
  /\ Str.count Str.dot (base_filename b) = 6%nat.
Proof.
  intros H. pose proof (prospective_no_dot _ _ _ _ _ _ _ _ _ H) as Hdot.
  pose proof (filename_ok b Hdot) as Hf. split; [exact Hf |].
  unfold filename in Hf.
  destruct (Nat.eqb (Str.count Str.dot (base_filename b)) _) eqn:Hc;
    [| discriminate].
  now apply Nat.eqb_eq in Hc.
Qed.

Lemma filename_of_constructed_identity_witness :
  filename sample_daily
  = Ok (OsPath.join (backup_dir sample_daily) (base_filename sample_daily))
  /\ Str.count Str.dot (base_filename sample_daily) = 6%nat.
Proof.
  apply (filename_of_constructed_identity sample_env (Some "/backups")
           (Some "daily") (Some "test") (SpecName "public") sample_conn
           (Some (Date.mk 2016 1 8)) false sample_daily).
  vm_compute; reflexivity.
Defined.

Lemma date_obj_of_constructed E dir type db spec ci today emp b :
  Date.valid today = true -> 1000 <= Date.year today ->
  prospective E dir type db spec ci (Some today) emp = Ok b ->
  date_obj b = Ok today.
Proof.
  intros Hv Hk H.
  destruct (prospective_inv _ _ _ _ _ _ _ _ _ H)
    as (label & names & _ & _ & _ & _ & ->).
  unfold date_obj. cbn [date]. now rewrite (strptime_strftime today Hv Hk).
Qed.

(** The date string of an identity constructed for a date whose year has
    four digits reads back as that date, so its week and month numbers
    are those of that date. *)
Theorem date_of_constructed_identity E dir type db spec ci today emp b :
  Date.valid today = true -> 1000 <= Date.year today ->
  prospective E dir type db spec ci (Some today) emp = Ok b ->
  date_obj b = Ok today
  /\ week_number b = Ok (fst (Date.isocalendar today))
  /\ month_number b = Ok (Date.year today, Date.month today).
Proof.
  intros Hv Hk H.
  destruct (prospective_inv _ _ _ _ _ _ _ _ _ H)
    as (label & names & _ & _ & _ & _ & ->).
  unfold week_number, month_number, date_obj. cbn [date].
  rewrite (strptime_strftime today Hv Hk). auto.
Qed.

Lemma date_of_constructed_identity_witness :
  date_obj sample_daily = Ok (Date.mk 2016 1 8)
  /\ week_number sample_daily = Ok (fst (Date.isocalendar (Date.mk 2016 1 8)))
  /\ month_number sample_daily = Ok (2016, 1).
Proof.
  apply (date_of_constructed_identity sample_env (Some "/backups")
           (Some "daily") (Some "test") (SpecName "public") sample_conn
           (Date.mk 2016 1 8) false sample_daily).
  - reflexivity.
  - cbn; lia.
  - vm_compute; reflexivity.
Defined.

(** Building the identity again from its own attributes, as [expire]
    does, gives the same identity. *)
Lemma prospective_rebuild E dir type db spec ci today emp b :
  Date.valid today = true ->
  prospective E dir type db spec ci (Some today) emp = Ok b ->
  prospective E (Some (backup_dir b)) (Some (backup_type b))
    (Some (database_label b)) spec ci (Some today) emp = Ok b.
Proof.
  intros Hv H. pose proof (prospective_dir_truthy _ _ _ _ _ _ _ _ _ H) as Hd.
  destruct (prospective_inv _ _ _ _ _ _ _ _ _ H)
    as (label & names & Hl & Hn & Hdots & Ht & Hb).
  assert (Hd' : opt_truthy (Some (backup_dir b)) = true) by exact Hd.
  assert (Htt : opt_truthy (Some (backup_type b)) = true).
  { subst b. cbn. now apply backup_type_truthy. }
  assert (Hdb : opt_truthy (Some (database_label b)) = true).
  { subst b. cbn. apply database_label_truthy. }
  unfold prospective. rewrite Hd', Htt, Hdb. cbn [andb].
  assert (Hreq : (if bool_decide (Some (backup_type b) = Some "globals")
                  then Ok tt else Ok tt) = Ok tt)
    by (destruct (bool_decide _); reflexivity).
  rewrite Hreq. cbn [bind].
  assert (Hci : validate_conn_info ci = Ok tt).
  { unfold prospective in H.
    destruct (if bool_decide (type = Some "globals") then _ else _);
      [| discriminate].
    cbn [bind] in H. destruct (validate_conn_info ci) as [[]|];
      [reflexivity | discriminate]. }
  rewrite Hci. cbn [bind]. rewrite Hl. cbn [bind]. rewrite Hn. cbn [bind].
  assert (Hdbl : Label.database_label (Some (database_label b))
                 = Label.database_label db).
  { subst b. cbn [database_label]. apply database_label_idem. }
  rewrite Hdbl, Hdots.
  apply validate_backup_type_ok in Ht.
  assert (Hty : backup_type b = default "" type) by now subst b.
  change (default "" (Some (backup_type b))) with (backup_type b).
  change (default "" (Some (backup_dir b))) with (backup_dir b).
  rewrite Hty, Ht. cbn [bind]. subst b. reflexivity.
Qed.

(** For an identity constructed for a date whose year has four digits,
    the mask [expire] derives from a rebuilt identity is the identity's
    own mask, the one [do_promotion] lists its siblings with. *)
Theorem expire_uses_the_mask_of_the_identity
    E dir type db spec ci today emp b :
  Date.valid today = true -> 1000 <= Date.year today ->
  prospective E dir type db spec ci (Some today) emp = Ok b ->
  expire_pattern E b = filename_with_date_masked E b None.
Proof.
  intros Hv Hk H.
  pose proof (date_obj_of_constructed _ _ _ _ _ _ _ _ _ Hv Hk H) as Hdate.
  pose proof (prospective_rebuild _ _ _ _ _ _ _ _ _ Hv H) as Hre.
  destruct (prospective_inv _ _ _ _ _ _ _ _ _ H)
    as (label & names & _ & _ & _ & _ & Hb).
  unfold expire_pattern.
  assert (Hs : schema_spec b = Some spec) by now subst b.
  assert (He : empty b = Some emp) by now subst b.
  rewrite Hs, Hdate, He. cbn [attribute bind].
  assert (Hc : conn_info b = ci) by now subst b.
  unfold Backup_init. cbn [opt_truthy]. rewrite Hc, Hre. reflexivity.
Qed.

Lemma expire_uses_the_mask_of_the_identity_witness :
  expire_pattern sample_env sample_daily
  = filename_with_date_masked sample_env sample_daily None.
Proof.
  apply (expire_uses_the_mask_of_the_identity sample_env (Some "/backups")
           (Some "daily") (Some "test") (SpecName "public") sample_conn
           (Date.mk 2016 1 8) false sample_daily).
  - reflexivity.
  - cbn; lia.
  - vm_compute; reflexivity.
Defined.

(** ** What the constructor rejects and what it guarantees *)

Lemma validate_conn_info_foreign_key (ci : conn_info_t) k v :
  ci !! k = Some v -> ~ In k ["hostname"; "port"; "username"] ->
  validate_conn_info ci = Raise (ValueError InvalidConnInfoKey).
Proof.
  intros Hk Hnot. unfold validate_conn_info.
  destruct (forallb _ (map_to_list ci)) eqn:Hf; [| reflexivity].
  exfalso. apply Hnot. rewrite forallb_forall in Hf.
  apply in_list_iff. apply (Hf (k, v)).
  apply list_elem_of_In. now apply elem_of_map_to_list.
Qed.

(** The constructor raises [ValueError] when [backup_dir] is missing or
    empty, when a tier other than globals comes without a tier name or
    without a database, and when [conn_info] has a key other than
    hostname, port and username. *)
Theorem constructor_rejects_bad_arguments
    E dir type db spec ci today emp :
  opt_truthy dir = false
  \/ (type <> Some "globals"
      /\ (opt_truthy type = false \/ opt_truthy db = false))
  \/ (exists k v, ci !! k = Some v
                  /\ ~ In k ["hostname"; "port"; "username"]) ->
  is_value_error (prospective E dir type db spec ci today emp).
Proof.
  intros H. unfold prospective.
  destruct (if bool_decide (type = Some "globals") then _ else _)
    as [[]|e] eqn:Hreq.
  2:{ repeat match type of Hreq with
             | (if ?c then _ else _) = _ => destruct c
             end; inversion Hreq; exact I. }
  cbn [bind].
  destruct H as [Hd | [[Hg Hm] | (k & v & Hk & Hnot)]].
  - rewrite Hd in Hreq. cbn [andb] in Hreq.
    destruct (bool_decide (type = Some "globals")); discriminate Hreq.
  - rewrite bool_decide_eq_false_2 in Hreq by exact Hg.
    destruct Hm as [Hm | Hm]; rewrite Hm in Hreq;
      rewrite ?andb_false_r in Hreq; discriminate Hreq.
  - rewrite (validate_conn_info_foreign_key ci k v Hk Hnot). exact I.
Qed.

Lemma constructor_rejects_bad_arguments_witness :
  is_value_error
    (prospective sample_env (Some "/backups") (Some "daily") (Some "test")
       SpecNone (<["password" := Some "secret"]> sample_conn)
       (Some (Date.mk 2016 1 8)) false).
Proof.
  apply constructor_rejects_bad_arguments.
  right. right. exists "password", (Some "secret").
  split; [reflexivity |].
  intros [H | [H | [H | []]]]; discriminate H.
Defined.

(** Every identity the constructor returns has a nonempty directory, a
    known tier, a nonempty database label, labels and a date string
    without the field separator, the date string of the day it was built
    for (today's when none was given), and records the selection it was
    built from. *)
Theorem constructed_identity_invariants
    E dir type db spec ci today emp b :
  prospective E dir type db spec ci today emp = Ok b ->
  Str.truthy (backup_dir b) = true
  /\ In (backup_type b) BACKUP_TYPES
  /\ Str.truthy (database_label b) = true
  /\ Forall (fun s => Str.contains Str.dot s = false)
       [hostname_label b; port_label b; database_label b; schema_label b;
        date b; backup_type b]
  /\ date b = Date.strftime (default (get_today E) today)
  /\ conn_info b = ci /\ empty b = Some emp /\ schema_spec b = Some spec
  /\ (exists names, resolve_schema_names E spec = Ok names
                    /\ schema_names b = Some names
                    /\ Forall (fun s => Str.contains Str.dot s = false) names).
Proof.
  intros H.
  pose proof (prospective_dir_truthy _ _ _ _ _ _ _ _ _ H) as Hd.
  pose proof (prospective_no_dot _ _ _ _ _ _ _ _ _ H) as Hdot.
  destruct (prospective_inv _ _ _ _ _ _ _ _ _ H)
    as (label & names & Hl & Hn & Hdots & Ht & Hb).
  split; [exact Hd |]. split; [now subst b |].
  split; [subst b; apply database_label_truthy |].
  split; [exact Hdot |].
  split; [subst b; now destruct today |].
  split; [now subst b |]. split; [now subst b |]. split; [now subst b |].
  exists names. split; [exact Hn |]. split; [now subst b |].
  apply Forall_forall. intros s Hs.
  destruct (Str.contains Str.dot s) eqn:Hc; [| reflexivity].
  assert (Hex : existsb (Str.contains Str.dot)
                  ([Label.port_label (conn_get ci "port");
                    Label.database_label db] ++ names) = true).
  { apply existsb_exists. exists s. split; [| exact Hc].
    apply in_or_app. right. now apply list_elem_of_In. }
  congruence.
Qed.

Lemma constructed_identity_invariants_witness :
  Str.truthy (backup_dir sample_daily) = true
  /\ In (backup_type sample_daily) BACKUP_TYPES
  /\ Str.truthy (database_label sample_daily) = true
  /\ Forall (fun s => Str.contains Str.dot s = false)
       [hostname_label sample_daily; port_label sample_daily;
        database_label sample_daily; schema_label sample_daily;
        date sample_daily; backup_type sample_daily]
  /\ date sample_daily
     = Date.strftime (default (get_today sample_env) (Some (Date.mk 2016 1 8)))
  /\ conn_info sample_daily = sample_conn
  /\ empty sample_daily = Some false
  /\ schema_spec sample_daily = Some (SpecName "public")
  /\ (exists names,
        resolve_schema_names sample_env (SpecName "public") = Ok names
        /\ schema_names sample_daily = Some names
        /\ Forall (fun s => Str.contains Str.dot s = false) names).
Proof.
  apply (constructed_identity_invariants sample_env (Some "/backups")
           (Some "daily") (Some "test") (SpecName "public") sample_conn
           (Some (Date.mk 2016 1 8)) false sample_daily).
  vm_compute; reflexivity.
Defined.

(** ** Dumps *)

Lemma expire_calls E self days weeks months w :
  calls (snd (expire E self days weeks months w)) = calls w.
Proof.
  destruct (expire_pattern E self) as [pattern|e] eqn:Hp.
  2:{ unfold expire, mbind, lift. now rewrite Hp. }
  destruct (num_to_keep self days weeks months) as [keep|e] eqn:Hk.
  2:{ unfold expire, mbind, lift. now rewrite Hp, Hk. }
  destruct (expire_deletes_slice E self days weeks months w pattern keep
              Hp Hk) as (fs' & Hrun & _).
  now rewrite Hrun.
Qed.

(** A backup that is not a promotion calls the dump tool exactly once,
    with the identity's own file name, whether or not the tool succeeds:
    [pg_dumpall] for globals, [pg_dump] with the database label, the
    schema list, the connection settings and the [empty] flag otherwise. *)
Theorem backup_dumps_once E self days weeks months w f :
  has_promotable_more_granular_backups self days weeks = false ->
  filename self = Ok f ->
  (backup_type self = "globals" ->
   calls (snd (backup E self days weeks months w))
   = calls w ++ [PgDumpallGlobals f (conn_info self)])
  /\ (backup_type self <> "globals" ->
      forall sl em,
        schema_list self = Ok sl -> empty self = Some em ->
        calls (snd (backup E self days weeks months w))
        = calls w ++ [PgDump (database_label self) f sl (conn_info self) em]).
Proof.
  intros Hprom Hf. unfold backup, mbind. rewrite Hprom. split.
  - intros Ht. rewrite Ht, String.eqb_refl. unfold lift. rewrite Hf.
    unfold call_tool. destruct (run_tool E _ (files w)) as [[[]|e] fs].
    + now rewrite expire_calls.
    + reflexivity.
  - intros Ht sl em Hsl Hem. apply String.eqb_neq in Ht. rewrite Ht.
    unfold lift. rewrite Hsl, Hf, Hem. cbn [attribute].
    unfold call_tool. destruct (run_tool E _ (files w)) as [[[]|e] fs].
    + now rewrite expire_calls.
    + reflexivity.
Qed.

Lemma backup_dumps_once_witness :
  (backup_type sample_all_daily = "globals" ->
   calls (snd (backup sample_env sample_all_daily (PyStr "7") (PyStr "4")
                 (PyStr "6") (mkWorld week1_dailies [])))
   = [] ++ [PgDumpallGlobals (daily_name "08") (conn_info sample_all_daily)])
  /\ (backup_type sample_all_daily <> "globals" ->
      forall sl em,
        schema_list sample_all_daily = Ok sl ->
        empty sample_all_daily = Some em ->
        calls (snd (backup sample_env sample_all_daily (PyStr "7")
                      (PyStr "4") (PyStr "6") (mkWorld week1_dailies [])))
        = [] ++ [PgDump (database_label sample_all_daily) (daily_name "08")
                   sl (conn_info sample_all_daily) em]).
Proof.
  apply (backup_dumps_once sample_env sample_all_daily (PyStr "7")
           (PyStr "4") (PyStr "6") (mkWorld week1_dailies [])
           (daily_name "08")).
  - reflexivity.
  - vm_compute; reflexivity.
Defined.

(** When the dump that [backup] makes fails, [backup] raises the tool's
    error and does not run [expire]: the directory is exactly as the
    failed tool left it. *)
Theorem failed_dump_expires_nothing E self days weeks months w f e fs1 :
  has_promotable_more_granular_backups self days weeks = false ->
  filename self = Ok f ->
  (backup_type self = "globals" ->
   run_tool E (PgDumpallGlobals f (conn_info self)) (files w)
   = (Raise e, fs1) ->
   backup E self days weeks months w
   = (Raise e,
      mkWorld fs1 (calls w ++ [PgDumpallGlobals f (conn_info self)])))
  /\ (backup_type self <> "globals" ->
      forall sl em,
        schema_list self = Ok sl -> empty self = Some em ->
        run_tool E (PgDump (database_label self) f sl (conn_info self) em)
          (files w)
        = (Raise e, fs1) ->
        backup E self days weeks months w
        = (Raise e,
           mkWorld fs1
             (calls w
              ++ [PgDump (database_label self) f sl (conn_info self) em]))).
Proof.
  intros Hprom Hf. unfold backup, mbind. rewrite Hprom. split.
  - intros Ht Hrun. rewrite Ht, String.eqb_refl. unfold lift. rewrite Hf.
    unfold call_tool. now rewrite Hrun.
  - intros Ht sl em Hsl Hem Hrun. apply String.eqb_neq in Ht. rewrite Ht.
    unfold lift. rewrite Hsl, Hf, Hem. cbn [attribute].
    unfold call_tool. now rewrite Hrun.
Qed.

Lemma failed_dump_expires_nothing_witness :
  (backup_type sample_all_daily = "globals" ->
   run_tool failing_env
     (PgDumpallGlobals (daily_name "08") (conn_info sample_all_daily))
     (files (mkWorld week1_dailies []))
   = (Raise (CalledProcessError 1),
      <[daily_name "08" := fresh_inode week1_dailies]> week1_dailies) ->
   backup failing_env sample_all_daily (PyStr "1") (PyStr "0") (PyStr "0")
     (mkWorld week1_dailies [])
   = (Raise (CalledProcessError 1),
      mkWorld (<[daily_name "08" := fresh_inode week1_dailies]> week1_dailies)
        ([] ++ [PgDumpallGlobals (daily_name "08")
                  (conn_info sample_all_daily)])))
  /\ (backup_type sample_all_daily <> "globals" ->
      forall sl em,
        schema_list sample_all_daily = Ok sl ->
        empty sample_all_daily = Some em ->
        run_tool failing_env
          (PgDump (database_label sample_all_daily) (daily_name "08") sl
             (conn_info sample_all_daily) em)
          (files (mkWorld week1_dailies []))
        = (Raise (CalledProcessError 1),
           <[daily_name "08" := fresh_inode week1_dailies]> week1_dailies) ->
        backup failing_env sample_all_daily (PyStr "1") (PyStr "0")
          (PyStr "0") (mkWorld week1_dailies [])
        = (Raise (CalledProcessError 1),
           mkWorld
             (<[daily_name "08" := fresh_inode week1_dailies]> week1_dailies)
             ([] ++ [PgDump (database_label sample_all_daily)
                       (daily_name "08") sl (conn_info sample_all_daily)
                       em]))).
Proof.
  apply (failed_dump_expires_nothing failing_env sample_all_daily
           (PyStr "1") (PyStr "0") (PyStr "0") (mkWorld week1_dailies [])
           (daily_name "08") (CalledProcessError 1)
           (<[daily_name "08" := fresh_inode week1_dailies]> week1_dailies)).
  - reflexivity.
  - vm_compute; reflexivity.
Defined.

(** ** The mask of a group *)

Lemma join_head_independent dir (base base' : string) :
  Str.contains Str.slash base = false ->
  Str.contains Str.slash base' = false ->
  fst (OsPath.split (OsPath.join dir base))
  = fst (OsPath.split (OsPath.join dir base')).
Proof.
  intros Hb Hb'. unfold OsPath.join.
  rewrite (startswith_contains _ _ Hb), (startswith_contains _ _ Hb').
  destruct (negb (Str.truthy dir) || Str.endswith Str.slash dir) eqn:Hd.
  - destruct dir as [|a dir].
    + cbn [String.append]. unfold OsPath.split.
      now rewrite (cut_no_slash base Hb), (cut_no_slash base' Hb').
    + cbn [Str.truthy negb orb] in Hd.
      destruct (endswith_app _ _ Hd) as [pre Hpre].
      unfold OsPath.split. rewrite Hpre, !append_assoc_str.
      cbn [String.append].
      rewrite (cut_app_slash pre base Hb), (cut_app_slash pre base' Hb').
      destruct (_ && _); reflexivity.
  - unfold OsPath.split.
    rewrite (cut_app_slash dir base Hb), (cut_app_slash dir base' Hb').
    destruct (_ && _); reflexivity.
Qed.

Lemma parse_filename_head b :
  Forall (fun s => Str.contains Str.dot s = false) (six_fields b) ->
  Forall (fun s => Str.contains Str.slash s = false) (six_fields b) ->
  Date.strptime (date b) <> None ->
  In (backup_type b) BACKUP_TYPES ->
  parse_filename (OsPath.join (backup_dir b) (base_filename b))
  = Ok (parsed_from
          (fst (OsPath.split (OsPath.join (backup_dir b) (base_filename b))))
          b).
Proof.
  intros Hdot Hslash Hdate Htype.
  pose proof (split_join_basename (backup_dir b) (base_filename b)
                (base_filename_no_slash b Hslash)) as Hbase.
  unfold parse_filename.
  destruct (OsPath.split (OsPath.join (backup_dir b) (base_filename b)))
    as [dir base] eqn:Hsplit.
  cbn [fst snd] in *. subst base.
  rewrite (split_base_filename b Hdot). cbn [six_fields app].
  destruct (Date.strptime (date b)); [| congruence].
  apply validate_backup_type_ok in Htype. rewrite Htype. cbn [bind].
  rewrite suffix_known. reflexivity.
Qed.

Lemma star_clean c : c = Str.dot \/ c = Str.slash -> Str.contains c "*" = false.
Proof. intros [-> | ->]; reflexivity. Qed.

(** The mask of an identity whose labels hold no separator, written out. *)
Lemma filename_with_date_masked_value E b o :
  Forall (fun s => Str.contains Str.dot s = false) (six_fields b) ->
  Forall (fun s => Str.contains Str.slash s = false) (six_fields b) ->
  Date.strptime (date b) <> None ->
  In (backup_type b) BACKUP_TYPES ->
  filename_with_date_masked E b o
  = let head :=
      fst (OsPath.split (OsPath.join (backup_dir b) (base_filename b))) in
    let masked t :=
      mkBackup head (conn_info (parsed_from head b)) (hostname_label b)
        (port_label b) (database_label b) (schema_label b) "*" t
        None None None in
    if opt_truthy o then
      let? _ := validate_backup_type (default "" o) in
      Ok (OsPath.join head (base_filename (masked (default "" o))))
    else Ok (OsPath.join head (base_filename (masked (backup_type b)))).
Proof.
  intros Hdot Hslash Hdate Htype. cbn zeta.
  unfold filename_with_date_masked.
  rewrite (filename_ok b Hdot). cbn [bind].
  rewrite Backup_of_filename_parse
    by apply join_truthy, base_filename_truthy.
  rewrite (parse_filename_head b Hdot Hslash Hdate Htype). cbn [bind].
  assert (Hfour : forall t, In t BACKUP_TYPES ->
            Forall (fun s => Str.contains Str.dot s = false)
              [hostname_label b; port_label b; database_label b;
               schema_label b; "*"; t]).
  { intros t Ht. unfold six_fields in Hdot.
    repeat match goal with
           | H : Forall _ (_ :: _) |- _ => apply Forall_cons in H as [? H]
           end.
    repeat constructor; try assumption. apply backup_type_clean; auto. }
  destruct (opt_truthy o) eqn:Ho.
  - unfold validate_backup_type.
    destruct (in_list (default "" o) BACKUP_TYPES) eqn:Hin; [| reflexivity].
    cbn [bind]. apply in_list_iff in Hin.
    rewrite filename_ok; [reflexivity |]. exact (Hfour _ Hin).
  - cbn [bind]. rewrite filename_ok; [reflexivity |]. exact (Hfour _ Htype).
Qed.

(** The mask does not depend on the date: identities that differ only in
    their date, each the constructor's encoding of a date whose year has
    four digits, have the same mask, for their own tier and for any tier
    asked for, so they list the same siblings. *)
Theorem mask_ignores_the_date E b d1 d2 o :
  Forall (fun s => Str.contains Str.dot s = false
                   /\ Str.contains Str.slash s = false)
    [hostname_label b; port_label b; database_label b; schema_label b] ->
  In (backup_type b) BACKUP_TYPES ->
  Date.valid d1 = true -> Date.valid d2 = true ->
  1000 <= Date.year d1 -> 1000 <= Date.year d2 ->
  filename_with_date_masked E (with_date b (Date.strftime d1)) o
  = filename_with_date_masked E (with_date b (Date.strftime d2)) o.
Proof.
  intros Hlabels Htype Hv1 Hv2 Hk1 Hk2.
  assert (Hclean : forall d c, c = Str.dot \/ c = Str.slash ->
            Forall (fun s => Str.contains c s = false)
              (six_fields (with_date b (Date.strftime d)))).
  { intros d c Hc. unfold six_fields. cbn [with_date hostname_label
      port_label database_label schema_label date backup_type].
    repeat match goal with
           | H : Forall _ (_ :: _) |- _ => apply Forall_cons in H as [[? ?] H]
           end.
    destruct Hc as [-> | ->]; repeat constructor; try assumption;
      try apply strftime_no_dot; try apply strftime_no_slash;
      apply backup_type_clean; auto. }
  assert (Hparse : forall d, Date.valid d = true -> 1000 <= Date.year d ->
            Date.strptime (date (with_date b (Date.strftime d))) <> None).
  { intros d Hv Hk. cbn [with_date date]. now rewrite strptime_strftime. }
  rewrite !filename_with_date_masked_value;
    try (apply Hclean; auto); try (apply Hparse; assumption);
    try exact Htype.
  cbn zeta. cbn [with_date backup_dir hostname_label port_label
    database_label schema_label backup_type conn_info parsed_from].
  rewrite (join_head_independent (backup_dir b)
             (base_filename (with_date b (Date.strftime d1)))
             (base_filename (with_date b (Date.strftime d2))));
    [reflexivity | |];
    apply base_filename_no_slash, Hclean; auto.
Qed.

Lemma mask_ignores_the_date_witness :
  filename_with_date_masked sample_env
    (with_date sample_weekly (Date.strftime (Date.mk 2016 1 8)))
    (Some "daily")
  = filename_with_date_masked sample_env
      (with_date sample_weekly (Date.strftime (Date.mk 2016 2 29)))
      (Some "daily").
Proof.
  apply (mask_ignores_the_date sample_env sample_weekly
           (Date.mk 2016 1 8) (Date.mk 2016 2 29) (Some "daily")).
  - repeat constructor.
  - cbn. auto.
  - reflexivity.
  - reflexivity.
  - cbn; lia.
  - cbn; lia.
Defined.

(** ** Command lines *)

Lemma make_cmd_app (a b : list PgUtils.cmd_arg) :
  PgUtils._make_cmd (a ++ b) = PgUtils._make_cmd a ++ PgUtils._make_cmd b.
Proof.
  unfold PgUtils._make_cmd. cbn zeta.
  now rewrite flat_map_app, omap_app.
Qed.

Lemma make_cmd_cons a b (l : list PgUtils.cmd_arg) :
  PgUtils._make_cmd (a :: b :: l)
  = PgUtils._make_cmd [a] ++ PgUtils._make_cmd (b :: l).
Proof. apply (make_cmd_app [a] (b :: l)). Qed.

Lemma make_cmd_arg (s : string) :
  PgUtils._make_cmd [PgUtils.Arg (Some s)]
  = if Str.truthy s then [s] else [].
Proof. unfold PgUtils._make_cmd. cbn. now destruct (Str.truthy s). Qed.

Lemma make_cmd_optional flag v :
  Str.truthy flag = true ->
  PgUtils._make_cmd [PgUtils._optional [Some flag; v]]
  = if opt_truthy v then [flag; default "" v] else [].
Proof.
  intros Hf. unfold PgUtils._optional, PgUtils.is_blank.
  cbn [existsb opt_truthy]. rewrite Hf. cbn [negb orb].
  destruct v as [s|]; cbn [opt_truthy negb].
  - destruct (Str.truthy s) eqn:Hs; cbn [negb]; unfold PgUtils._make_cmd;
      cbn; now rewrite ?Hf, ?Hs.
  - reflexivity.
Qed.

(** A connection option is all or nothing: within any command, a setting
    that is missing, [None] or empty contributes no argument, and a
    setting that has a value contributes its flag followed by the value. *)
Theorem optional_pair_is_all_or_nothing
    (before after : list PgUtils.cmd_arg) (flag : string)
    (v : option string) :
  Str.truthy flag = true ->
  PgUtils._make_cmd (before ++ [PgUtils._optional [Some flag; v]] ++ after)
  = PgUtils._make_cmd before
    ++ (if opt_truthy v then [flag; default "" v] else [])
    ++ PgUtils._make_cmd after.
Proof.
  intros Hf. now rewrite !make_cmd_app, make_cmd_optional.
Qed.

Lemma optional_pair_is_all_or_nothing_witness :
  PgUtils._make_cmd
    ([PgUtils.Arg (Some "pg_dump")]
       ++ [PgUtils._optional [Some "-U"; Some ""]]
       ++ [PgUtils.Arg (Some "-d"); PgUtils.Arg (Some "test")])
  = PgUtils._make_cmd [PgUtils.Arg (Some "pg_dump")]
    ++ (if opt_truthy (Some "") then ["-U"; default "" (Some "")] else [])
    ++ PgUtils._make_cmd [PgUtils.Arg (Some "-d"); PgUtils.Arg (Some "test")].
Proof.
  apply (optional_pair_is_all_or_nothing [PgUtils.Arg (Some "pg_dump")]
           [PgUtils.Arg (Some "-d"); PgUtils.Arg (Some "test")]
           "-U" (Some "")).
  reflexivity.
Defined.

Lemma make_cmd_strings (l : list string) :
  PgUtils._make_cmd [PgUtils.Args (Some <$> l)]
  = filter (fun s => Str.truthy s = true) l.
Proof.
  unfold PgUtils._make_cmd. cbn [flat_map]. rewrite app_nil_r.
  induction l as [|s l IH]; [reflexivity |].
  cbn [fmap list_fmap omap list_omap opt_truthy].
  rewrite filter_cons. destruct (Str.truthy s) eqn:Hs.
  - rewrite decide_True by reflexivity. f_equal. exact IH.
  - rewrite decide_False by discriminate. exact IH.
Qed.

(** For a database name and a file name that are not empty, and without
    [empty], the command of [pg_dump] is the tool's words, the format
    switch, the connection options that are set, then [-d database
    -f filename], then one [-n] for each schema. *)
Theorem pg_dump_command_shape tool get_schemas database filename schemas ci :
  Str.truthy database = true -> Str.truthy filename = true ->
  PgUtils.pg_dump tool get_schemas database filename schemas ci false
  = PgUtils.Command
      (filter (fun s => Str.truthy s = true) tool
       ++ ["--format=c"]
       ++ (if opt_truthy (conn_get ci "username")
           then ["-U"; default "" (conn_get ci "username")] else [])
       ++ (if opt_truthy (conn_get ci "hostname")
           then ["-h"; default "" (conn_get ci "hostname")] else [])
       ++ (if opt_truthy (conn_get ci "port")
           then ["-p"; default "" (conn_get ci "port")] else [])
       ++ ["-d"; database; "-f"; filename]
       ++ flat_map (fun s => ["-n"; s]) schemas).
Proof.
  intros Hd Hf. unfold PgUtils.pg_dump.
  assert (Hcmd :
    PgUtils._make_cmd
      [PgUtils.Args (Some <$> tool); PgUtils.Arg (Some "--format=c");
       PgUtils._optional [Some "-U"; conn_get ci "username"];
       PgUtils._optional [Some "-h"; conn_get ci "hostname"];
       PgUtils._optional [Some "-p"; conn_get ci "port"];
       PgUtils.Arg (Some "-d"); PgUtils.Arg (Some database);
       PgUtils.Arg (Some "-f"); PgUtils.Arg (Some filename)]
    = filter (fun s => Str.truthy s = true) tool
      ++ ["--format=c"]
      ++ (if opt_truthy (conn_get ci "username")
          then ["-U"; default "" (conn_get ci "username")] else [])
      ++ (if opt_truthy (conn_get ci "hostname")
          then ["-h"; default "" (conn_get ci "hostname")] else [])
      ++ (if opt_truthy (conn_get ci "port")
          then ["-p"; default "" (conn_get ci "port")] else [])
      ++ ["-d"; database; "-f"; filename]).
  { rewrite !make_cmd_cons, make_cmd_strings, !make_cmd_optional
      by reflexivity.
    rewrite !make_cmd_arg, Hd, Hf. reflexivity. }
  cbv zeta. rewrite Hcmd. destruct schemas as [|s l].
  - cbn [flat_map]. now rewrite !app_nil_r.
  - now rewrite <- !app_assoc.
Qed.

Lemma pg_dump_command_shape_witness :
  PgUtils.pg_dump ["pg_dump"] (fun _ _ => Ok []) "test"
    "/backups/db1.5432.test.public.2016-01-08.daily.pg_dump_Fc"
    ["public"] sample_conn false
  = PgUtils.Command
      (filter (fun s => Str.truthy s = true) ["pg_dump"]
       ++ ["--format=c"]
       ++ (if opt_truthy (conn_get sample_conn "username")
           then ["-U"; default "" (conn_get sample_conn "username")] else [])
       ++ (if opt_truthy (conn_get sample_conn "hostname")
           then ["-h"; default "" (conn_get sample_conn "hostname")] else [])
       ++ (if opt_truthy (conn_get sample_conn "port")
           then ["-p"; default "" (conn_get sample_conn "port")] else [])
       ++ ["-d"; "test"; "-f";
           "/backups/db1.5432.test.public.2016-01-08.daily.pg_dump_Fc"]
       ++ flat_map (fun s => ["-n"; s]) ["public"]).
Proof.
  apply (pg_dump_command_shape ["pg_dump"] (fun _ _ => Ok []) "test"
           "/backups/db1.5432.test.public.2016-01-08.daily.pg_dump_Fc"
           ["public"] sample_conn); reflexivity.
Defined.

(** An identity built with [empty] set and one schema name is labelled
    [no_schemas], yet [backup] hands the name to [pg_dump] together with
    [empty], and [pg_dump] refuses that combination before it runs
    anything. *)
Theorem empty_identity_with_schema_is_refused
    E dir type db name ci today b tool get_schemas f :
  Str.truthy name = true ->
  prospective E dir type db (SpecName name) ci today true = Ok b ->
  schema_label b = "no_schemas"
  /\ schema_list b = Ok [name]
  /\ empty b = Some true
  /\ PgUtils.pg_dump tool get_schemas (database_label b) f [name]
       (conn_info b) true
     = PgUtils.IncompatibleSchemas.
Proof.
  intros Hname H.
  destruct (prospective_inv _ _ _ _ _ _ _ _ _ H)
    as (label & names & Hl & Hn & _ & _ & ->).
  cbn in Hl, Hn. injection Hl as <-. injection Hn as <-.
  repeat split. unfold schema_list. cbn. now rewrite Hname.
Qed.

Lemma empty_identity_with_schema_is_refused_witness :
  schema_label empty_with_schema = "no_schemas"
  /\ schema_list empty_with_schema = Ok ["public"]
  /\ empty empty_with_schema = Some true
  /\ PgUtils.pg_dump ["pg_dump"] (fun _ _ => Ok ["public"])
       (database_label empty_with_schema)
       "/backups/db1.5432.test.no_schemas.2016-01-08.daily.pg_dump_Fc"
       ["public"] (conn_info empty_with_schema) true
     = PgUtils.IncompatibleSchemas.
Proof.
  apply (empty_identity_with_schema_is_refused sample_env (Some "/backups")
           (Some "daily") (Some "test") "public" sample_conn
           (Some (Date.mk 2016 1 8)) empty_with_schema).
  - reflexivity.
  - vm_compute; reflexivity.
Defined.

(** ** Counts read from the configuration file *)

Lemma py_int_string_nonempty s z : py_int (PyStr s) = Ok z -> Str.truthy s = true.
Proof. destruct s; [discriminate | reflexivity]. Qed.

(** A count that arrives as a string is enabled whenever it is an integer
    at all: the string of a zero ('0', '00', ' 0') still makes a weekly
    (monthly) backup a promotion, although [expire] reads it as 0. *)
Theorem zero_count_string_enables_promotion self s other :
  py_int (PyStr s) = Ok 0 ->
  (backup_type self = "weekly" ->
   has_promotable_more_granular_backups self (PyStr s) other = true)
  /\ (backup_type self = "monthly" ->
      has_promotable_more_granular_backups self other (PyStr s) = true)
  /\ (backup_type self = "daily" ->
      num_to_keep self (PyStr s) other other = Ok 0).
Proof.
  intros H. pose proof (py_int_string_nonempty s 0 H) as Hs.
  unfold has_promotable_more_granular_backups, num_to_keep.
  repeat split; intros ->; cbn; assumption.
Qed.

Lemma zero_count_string_enables_promotion_witness :
  (backup_type sample_weekly = "weekly" ->
   has_promotable_more_granular_backups sample_weekly (PyStr "0") (PyInt 4)
   = true)
  /\ (backup_type sample_weekly = "monthly" ->
      has_promotable_more_granular_backups sample_weekly (PyInt 4) (PyStr "0")
      = true)
  /\ (backup_type sample_weekly = "daily" ->
      num_to_keep sample_weekly (PyStr "0") (PyInt 4) (PyInt 4) = Ok 0).
Proof.
  apply (zero_count_string_enables_promotion sample_weekly "0" (PyInt 4)).
  reflexivity.
Defined.

Lemma prospective_rejects_separator_witness :
  is_value_error
    (prospective sample_env (Some "/backups") (Some "daily")
       (Some "test.v2") (SpecNames ["public"; "audit"]) sample_conn
       (Some (Date.mk 2016 1 8)) false).
Proof.
  apply (prospective_rejects_separator sample_env (Some "/backups")
           (Some "daily") (Some "test.v2") (SpecNames ["public"; "audit"])
           sample_conn (Some (Date.mk 2016 1 8)) false ["public"; "audit"]).
  - reflexivity.
  - apply Exists_cons_tl, Exists_cons_hd. reflexivity.
Defined.

Lemma make_cmd_truthy (args : list PgUtils.cmd_arg) :
  Forall (fun s => Str.truthy s = true) (PgUtils._make_cmd args).
Proof.
  unfold PgUtils._make_cmd. cbn zeta.
  induction (flat_map _ args) as [|a l IH]; [constructor |].
  cbn [omap list_omap]. destruct a as [s|]; cbn [opt_truthy]; [| exact IH].
  destruct (Str.truthy s) eqn:Hs; [| exact IH]. now constructor.
Qed.

(** The command of [pg_dumpall_globals] holds no empty argument, and for
    a file name that is not empty it ends in the two fixed switches and
    [-f filename]. *)
Theorem pg_dumpall_globals_command tool filename ci :
  Str.truthy filename = true ->
  Forall (fun s => Str.truthy s = true)
    (PgUtils.pg_dumpall_globals tool filename ci)
  /\ exists pre,
       PgUtils.pg_dumpall_globals tool filename ci
       = pre ++ ["--globals-only"; "--database=template1"; "-f"; filename].
Proof.
  intros Hf. split; [apply make_cmd_truthy |].
  unfold PgUtils.pg_dumpall_globals.
  rewrite !make_cmd_cons, !make_cmd_arg, Hf. cbn [Str.truthy].
  exists (PgUtils._make_cmd [PgUtils.Args (Some <$> tool)]
          ++ PgUtils._make_cmd
               [PgUtils._optional [Some "-U"; conn_get ci "username"]]
          ++ PgUtils._make_cmd
               [PgUtils._optional [Some "-h"; conn_get ci "hostname"]]
          ++ PgUtils._make_cmd
               [PgUtils._optional [Some "-p"; conn_get ci "port"]]).
  now rewrite <- !app_assoc.
Qed.

Lemma pg_dumpall_globals_command_witness :
  Forall (fun s => Str.truthy s = true)
    (PgUtils.pg_dumpall_globals ["pg_dumpall"] "/backups/globals.sql"
       sample_conn)
  /\ exists pre,
       PgUtils.pg_dumpall_globals ["pg_dumpall"] "/backups/globals.sql"
         sample_conn
       = pre ++ ["--globals-only"; "--database=template1"; "-f";
                 "/backups/globals.sql"].
Proof.
  apply (pg_dumpall_globals_command ["pg_dumpall"] "/backups/globals.sql"
           sample_conn).
  reflexivity.
Defined.

(** ** Host labels *)

(** A missing or empty host name, [localhost] and [127.0.0.1] all give the
    same label: the machine's own name up to its first period, or
    [localhost] when the machine has no name. No host label holds a
    period. *)
Theorem hostname_label_of_local_host E :
  let machine := if Str.truthy (gethostname E) then gethostname E
                 else "localhost" in
  Forall (fun h => Label.hostname_label E h
                   = Str.partition_head Str.dot machine)
    [None; Some ""; Some "localhost"; Some "127.0.0.1"]
  /\ forall h, Str.contains Str.dot (Label.hostname_label E h) = false.
Proof.
  cbn zeta. split; [| apply hostname_label_no_dot].
  assert (H : forall s, Str.contains Str.dot s = false ->
                        Str.partition_head Str.dot s = s).
  { induction s as [|a s IH]; [reflexivity |]. cbn.
    destruct (Ascii.eqb a Str.dot); [discriminate |].
    intros Hs. now rewrite IH. }
  repeat constructor; unfold Label.hostname_label;
    cbn [opt_truthy Str.truthy default String.eqb Ascii.eqb Bool.eqb orb];
    match goal with
    | |- context [if Str.contains Str.dot ?x then _ else _] =>
        destruct (Str.contains Str.dot x) eqn:Hc
    end; try reflexivity; symmetry; now apply H.
Qed.

(** ** Retention after a backup *)

Lemma expire_remaining E self days weeks months w pattern keep :
  expire_pattern E self = Ok pattern ->
  num_to_keep self days weeks months = Ok keep ->
  0 < keep ->
  exists fs',
    expire E self days weeks months w = (Ok tt, mkWorld fs' (calls w))
    /\ glob E fs' pattern
       ≡ₚ drop (length (sort_files (glob E (files w) pattern))
                - Z.to_nat keep)
            (sort_files (glob E (files w) pattern)).
Proof.
  intros Hp Hk Hpos.
  set (matched := sort_files (glob E (files w) pattern)).
  set (n := (length matched - Z.to_nat keep)%nat).
  destruct (expire_deletes_slice E self days weeks months w pattern keep
              Hp Hk) as (fs' & Hrun & Hgone & Hkept).
  fold matched in Hgone, Hkept.
  rewrite slice_to_keep in Hgone, Hkept by assumption. fold n in Hgone, Hkept.
  exists fs'. split; [exact Hrun |].
  pose proof (sort_glob_NoDup E (files w) pattern) as Hnd.
  fold matched in Hnd.
  destruct (NoDup_take_drop matched n Hnd) as (_ & Hndr & Hdisj & Hsplit).
  apply NoDup_Permutation; [apply glob_NoDup | exact Hndr |].
  intros x. rewrite glob_elem. split.
  - intros [Hsome Hmatch].
    assert (Hnot : x ∉ take n matched).
    { intros Hc. rewrite (Hgone x Hc) in Hsome.
      now apply is_Some_None in Hsome. }
    rewrite Hkept in Hsome by assumption.
    assert (Hm : x ∈ matched).
    { apply sort_files_elem, glob_elem. now split. }
    apply Hsplit in Hm as [Hm | Hm]; [contradiction | exact Hm].
  - intros Hx. assert (Hnot : x ∉ take n matched).
    { intros Hc. now apply (Hdisj x). }
    rewrite Hkept by assumption.
    assert (Hm : x ∈ matched) by (apply Hsplit; now right).
    apply (proj1 (sort_files_elem _ _)) in Hm.
    now apply glob_elem in Hm.
Qed.

(** After a backup that returns normally with a positive keep count, at
    most that many files match the identity's mask. *)
Theorem backup_leaves_at_most_keep
    E self days weeks months w w' pattern keep :
  expire_pattern E self = Ok pattern ->
  num_to_keep self days weeks months = Ok keep ->
  0 < keep ->
  backup E self days weeks months w = (Ok tt, w') ->
  (length (glob E (files w') pattern) <= Z.to_nat keep)%nat.
Proof.
  intros Hp Hk Hpos. unfold backup, mbind.
  match goal with
  | |- context [match ?m w with _ => _ end] => destruct (m w) as [[[]|e] w1]
  end; [| discriminate].
  destruct (expire_remaining E self days weeks months w1 pattern keep
              Hp Hk Hpos) as (fs' & Hrun & Hperm).
  rewrite Hrun. intros [= <-]. cbn [files].
  rewrite Hperm, length_drop. lia.
Qed.

Lemma backup_leaves_at_most_keep_witness :
  (length (glob sample_env
             (files (snd (backup sample_env sample_all_daily (PyStr "3")
                            (PyStr "0") (PyStr "0")
                            (mkWorld week1_dailies []))))
             daily_mask)
   <= Z.to_nat 3)%nat.
Proof.
  apply (backup_leaves_at_most_keep sample_env sample_all_daily
           (PyStr "3") (PyStr "0") (PyStr "0") (mkWorld week1_dailies [])).
  - vm_compute; reflexivity.
  - reflexivity.
  - lia.
  - vm_compute; reflexivity.
Defined.

(** ** Positions in the sorted list of matches *)

Lemma str_lt_iff (a b : string) : Str.lt a b <-> Str.le a b /\ a <> b.
Proof.
  unfold Str.lt, Str.le. rewrite ltb_compare, leb_compare. split.
  - intros H. split; [congruence |]. intros ->.
    rewrite string_compare_refl in H. discriminate.
  - intros [Hle Hne]. destruct (String.compare a b) eqn:Hc;
      [| reflexivity | congruence].
    apply String.compare_eq_iff in Hc. contradiction.
Qed.

(** In a sorted list of distinct names, the names before an element are
    the smaller ones and the names after it the greater ones. *)
Lemma sorted_split (m : list string) p :
  StronglySorted Str.le m -> NoDup m -> p ∈ m ->
  exists l1 l2,
    m = l1 ++ p :: l2
    /\ (forall q, q ∈ l1 <-> q ∈ m /\ Str.lt q p)
    /\ (forall q, q ∈ l2 <-> q ∈ m /\ Str.lt p q).
Proof.
  intros Hs Hnd Hin.
  destruct (list_elem_of_split m p Hin) as (l1 & l2 & ->).
  exists l1, l2. split; [reflexivity |].
  apply StronglySorted_app in Hs as (Hcross & _ & Hs2).
  apply StronglySorted_cons in Hs2 as [Hp2 _].
  rewrite Forall_forall in Hp2.
  apply NoDup_app in Hnd as (_ & Hdisj & Hnd2).
  apply NoDup_cons in Hnd2 as [Hp2' _].
  assert (Hp1 : p ∉ l1).
  { intros Hc. apply (Hdisj p Hc). now left. }
  split; intros q; rewrite elem_of_app, elem_of_cons, !str_lt_iff; split.
  - intros Hq. split; [now left |]. split.
    + apply Hcross; [exact Hq | now left].
    + intros ->. contradiction.
  - intros [[Hq | [-> | Hq]] [Hle Hne]]; [exact Hq | congruence |].
    exfalso. apply Hne. apply (anti_symm Str.le); [exact Hle | now apply Hp2].
  - intros Hq. split; [now right; right |]. split.
    + now apply Hp2.
    + intros ->. contradiction.
  - intros [[Hq | [-> | Hq]] [Hle Hne]]; [| congruence | exact Hq].
    exfalso. apply Hne. apply (anti_symm Str.le); [exact Hle |].
    apply Hcross; [exact Hq | now left].
Qed.

Lemma take_middle (l1 l2 : list string) p n :
  NoDup (l1 ++ p :: l2) ->
  p ∈ take n (l1 ++ p :: l2) <-> (length l1 < n)%nat.
Proof.
  intros Hnd. rewrite elem_of_take. split.
  - intros (i & Hi & Hlt).
    assert (Hmid : (l1 ++ p :: l2) !! length l1 = Some p)
      by now apply list_lookup_middle.
    now rewrite <- (NoDup_lookup _ _ _ _ Hnd Hi Hmid).
  - intros Hlt. exists (length l1). split; [| exact Hlt].
    now apply list_lookup_middle.
Qed.

(** The matches left after the first [k] sorted ones are unlinked. *)
Lemma glob_after_unlink E (fs fs' : files_t) pattern k :
  (forall p, p ∈ take k (sort_files (glob E fs pattern)) -> fs' !! p = None) ->
  (forall p, p ∉ take k (sort_files (glob E fs pattern)) ->
             fs' !! p = fs !! p) ->
  glob E fs' pattern ≡ₚ drop k (sort_files (glob E fs pattern)).
Proof.
  intros Hgone Hkept.
  set (matched := sort_files (glob E fs pattern)) in *.
  pose proof (sort_glob_NoDup E fs pattern) as Hnd. fold matched in Hnd.
  destruct (NoDup_take_drop matched k Hnd) as (_ & Hndr & Hdisj & Hsplit).
  apply NoDup_Permutation; [apply glob_NoDup | exact Hndr |].
  intros x. rewrite glob_elem. split.
  - intros [Hsome Hmatch].
    assert (Hnot : x ∉ take k matched).
    { intros Hc. rewrite (Hgone x Hc) in Hsome.
      now apply is_Some_None in Hsome. }
    rewrite Hkept in Hsome by assumption.
    assert (Hm : x ∈ matched).
    { apply sort_files_elem, glob_elem. now split. }
    apply Hsplit in Hm as [Hm | Hm]; [contradiction | exact Hm].
  - intros Hx. assert (Hnot : x ∉ take k matched).
    { intros Hc. now apply (Hdisj x). }
    rewrite Hkept by assumption.
    assert (Hm : x ∈ matched) by (apply Hsplit; now right).
    apply (proj1 (sort_files_elem _ _)) in Hm.
    now apply glob_elem in Hm.
Qed.

(** [expire] for a mask and a count that are defined, when its slice is
    the first [k] sorted matches: it returns normally, leaves alone what
    does not match, and unlinks a match exactly when fewer than [k]
    matches come before it in the sorted list. *)
Lemma expire_by_position E self days weeks months w pattern keep k :
  expire_pattern E self = Ok pattern ->
  num_to_keep self days weeks months = Ok keep ->
  slice_to (- keep) (sort_files (glob E (files w) pattern))
  = take k (sort_files (glob E (files w) pattern)) ->
  exists fs',
    expire E self days weeks months w = (Ok tt, mkWorld fs' (calls w))
    /\ (forall p,
          ~ (is_Some (files w !! p) /\ fnmatch E pattern p = true) ->
          fs' !! p = files w !! p)
    /\ (forall p,
          is_Some (files w !! p) -> fnmatch E pattern p = true ->
          exists l1 l2,
            sort_files (glob E (files w) pattern) = l1 ++ p :: l2
            /\ NoDup l1 /\ NoDup l2
            /\ (forall q, q ∈ l1 <->
                          is_Some (files w !! q)
                          /\ fnmatch E pattern q = true /\ Str.lt q p)
            /\ (forall q, q ∈ l2 <->
                          is_Some (files w !! q)
                          /\ fnmatch E pattern q = true /\ Str.lt p q)
            /\ fs' !! p = if decide (length l1 < k)%nat then None
                          else files w !! p)
    /\ glob E fs' pattern
       ≡ₚ drop k (sort_files (glob E (files w) pattern)).
Proof.
  intros Hp Hk Hslice.
  set (matched := sort_files (glob E (files w) pattern)) in *.
  destruct (expire_deletes_slice E self days weeks months w pattern keep
              Hp Hk) as (fs' & Hrun & Hgone & Hkept).
  fold matched in Hgone, Hkept. rewrite Hslice in Hgone, Hkept.
  exists fs'. split; [exact Hrun |].
  assert (Hmem : forall q, q ∈ matched <->
                   is_Some (files w !! q) /\ fnmatch E pattern q = true).
  { intros q. unfold matched. now rewrite sort_files_elem, glob_elem. }
  split; [| split].
  - intros p Hno. apply Hkept. intros Hin. apply Hno, Hmem.
    apply elem_of_take in Hin as (i & Hi & _).
    now apply list_elem_of_lookup_2 in Hi.
  - intros p Hsome Hmatch.
    assert (Hin : p ∈ matched) by (apply Hmem; now split).
    pose proof (sort_glob_NoDup E (files w) pattern) as Hndm.
    fold matched in Hndm.
    destruct (sorted_split matched p (sort_files_sorted _) Hndm Hin)
      as (l1 & l2 & Heq & Hl1 & Hl2).
    exists l1, l2. split; [exact Heq |].
    pose proof Hndm as Hnd'. rewrite Heq in Hnd'.
    apply NoDup_app in Hnd' as (Hn1 & _ & Hn2).
    apply NoDup_cons in Hn2 as [_ Hn2].
    split; [exact Hn1 |]. split; [exact Hn2 |].
    split; [intros q; rewrite Hl1, Hmem; tauto |].
    split; [intros q; rewrite Hl2, Hmem; tauto |].
    rewrite Heq in Hndm.
    pose proof (take_middle l1 l2 p k Hndm) as Htm. rewrite <- Heq in Htm.
    destruct (decide (length l1 < k)%nat) as [Hlt | Hge].
    + apply Hgone, Htm, Hlt.
    + apply Hkept. intros Hc. apply Hge, Htm, Hc.
  - now apply glob_after_unlink.
Qed.

Lemma same_members_same_length (l k : list string) (P : string -> Prop) :
  NoDup l -> NoDup k ->
  (forall q, q ∈ l <-> P q) -> (forall q, q ∈ k <-> P q) ->
  length l = length k.
Proof.
  intros Hl Hk Hlp Hkp. apply Permutation_length, NoDup_Permutation; auto.
  intros q. now rewrite Hlp, Hkp.
Qed.

(** C3, as amended: for an identity whose mask [expire] can build, and a
    positive keep count, [expire] returns normally and unlinks exactly the
    paths of the directory that match the mask and have at least [keep]
    matching paths after them in name order; every other path is left as
    it was, so of the matching paths the last [keep] in name order remain
    (all of them when there are fewer). The keep count is 1 for a globals
    identity whatever the configured counts are, and the integer value of
    [days_to_keep], [weeks_to_keep] or [months_to_keep] for a daily,
    weekly or monthly one. *)
Theorem expire_keeps_most_recent E self days weeks months w pattern keep :
  expire_pattern E self = Ok pattern ->
  num_to_keep self days weeks months = Ok keep ->
  0 < keep ->
  (exists fs',
     expire E self days weeks months w = (Ok tt, mkWorld fs' (calls w))
     /\ (forall p,
           ~ (is_Some (files w !! p) /\ fnmatch E pattern p = true) ->
           fs' !! p = files w !! p)
     /\ (forall p later,
           is_Some (files w !! p) -> fnmatch E pattern p = true ->
           NoDup later ->
           (forall q, q ∈ later <->
                      is_Some (files w !! q) /\ fnmatch E pattern q = true
                      /\ Str.lt p q) ->
           fs' !! p = if decide (Z.to_nat keep <= length later)%nat
                      then None else files w !! p)
     /\ (forall before after,
           NoDup before ->
           (forall q, q ∈ before <->
                      is_Some (files w !! q) /\ fnmatch E pattern q = true) ->
           NoDup after ->
           (forall q, q ∈ after <->
                      is_Some (fs' !! q) /\ fnmatch E pattern q = true) ->
           length after = Nat.min (Z.to_nat keep) (length before)))
  /\ (backup_type self = "globals" -> keep = 1)
  /\ (backup_type self = "daily" -> py_int days = Ok keep)
  /\ (backup_type self = "weekly" -> py_int weeks = Ok keep)
  /\ (backup_type self = "monthly" -> py_int months = Ok keep).
Proof.
  intros Hp Hk Hpos. split.
  - set (matched := sort_files (glob E (files w) pattern)).
    destruct (expire_by_position E self days weeks months w pattern keep
                (length matched - Z.to_nat keep)%nat Hp Hk)
      as (fs' & Hrun & Hother & Hpos' & Hperm).
    { now apply slice_to_keep. }
    fold matched in Hpos', Hperm.
    exists fs'. split; [exact Hrun |]. split; [exact Hother |]. split.
    + intros p later Hsome Hmatch Hnd Hlater.
      destruct (Hpos' p Hsome Hmatch)
        as (l1 & l2 & Heq & _ & Hn2 & _ & Hl2 & Hfs).
      rewrite Hfs.
      assert (Hlen : length later = length l2)
        by exact (same_members_same_length later l2 _ Hnd Hn2 Hlater Hl2).
      assert (Hm : length matched = (length l1 + S (length l2))%nat).
      { rewrite Heq, length_app. reflexivity. }
      destruct (decide (length l1 < length matched - Z.to_nat keep)%nat);
        destruct (decide (Z.to_nat keep <= length later)%nat);
        try reflexivity; exfalso; lia.
    + intros before after Hnb Hbefore Hna Hafter.
      assert (Hb : length before = length matched).
      { apply Permutation_length, NoDup_Permutation;
          [exact Hnb | apply sort_glob_NoDup |].
        intros q. unfold matched.
        now rewrite Hbefore, sort_files_elem, glob_elem. }
      assert (Ha : length after = length (glob E fs' pattern)).
      { apply Permutation_length, NoDup_Permutation;
          [exact Hna | apply glob_NoDup |].
        intros q. now rewrite Hafter, glob_elem. }
      rewrite Ha, Hperm, length_drop, Hb. lia.
  - unfold num_to_keep in Hk.
    repeat split; intros Ht; rewrite Ht in Hk; cbn in Hk; congruence.
Qed.

Lemma expire_keeps_most_recent_witness :
  (exists fs',
     expire sample_env sample_all_daily (PyStr "3") (PyStr "0") (PyStr "0")
       (mkWorld week1_dailies [])
     = (Ok tt, mkWorld fs' [])
     /\ (forall p,
           ~ (is_Some (week1_dailies !! p)
              /\ fnmatch sample_env daily_mask p = true) ->
           fs' !! p = week1_dailies !! p)
     /\ (forall p later,
           is_Some (week1_dailies !! p) ->
           fnmatch sample_env daily_mask p = true ->
           NoDup later ->
           (forall q, q ∈ later <->
                      is_Some (week1_dailies !! q)
                      /\ fnmatch sample_env daily_mask q = true
                      /\ Str.lt p q) ->
           fs' !! p = if decide (Z.to_nat 3 <= length later)%nat
                      then None else week1_dailies !! p)
     /\ (forall before after,
           NoDup before ->
           (forall q, q ∈ before <->
                      is_Some (week1_dailies !! q)
                      /\ fnmatch sample_env daily_mask q = true) ->
           NoDup after ->
           (forall q, q ∈ after <->
                      is_Some (fs' !! q)
                      /\ fnmatch sample_env daily_mask q = true) ->
           length after = Nat.min (Z.to_nat 3) (length before)))
  /\ (backup_type sample_all_daily = "globals" -> 3 = 1)
  /\ (backup_type sample_all_daily = "daily" -> py_int (PyStr "3") = Ok 3)
  /\ (backup_type sample_all_daily = "weekly" -> py_int (PyStr "0") = Ok 3)
  /\ (backup_type sample_all_daily = "monthly" -> py_int (PyStr "0") = Ok 3).
Proof.
  apply (expire_keeps_most_recent sample_env sample_all_daily
           (PyStr "3") (PyStr "0") (PyStr "0") (mkWorld week1_dailies [])
           daily_mask 3).
  - vm_compute; reflexivity.
  - reflexivity.
  - lia.
Defined.

(** C3, as stated, fails: the identity decoded from the name of the daily
    artifact of 2016-01-08 has the mask that the five dailies match, the
    keep count is 3, and [expire] removes none of them: it raises
    [AttributeError], the decoded identity having no [schema_spec]. *)
Lemma expire_raises_on_decoded_identity :
  Backup_of_filename sample_env (daily_name "08")
  = Ok (parsed_from "/backups" sample_all_daily)
  /\ filename_with_date_masked sample_env
       (parsed_from "/backups" sample_all_daily) None
     = Ok daily_mask
  /\ length (glob sample_env week1_dailies daily_mask) = 5%nat
  /\ num_to_keep (parsed_from "/backups" sample_all_daily)
       (PyInt 3) (PyInt 0) (PyInt 0) = Ok 3
  /\ expire sample_env (parsed_from "/backups" sample_all_daily)
       (PyInt 3) (PyInt 0) (PyInt 0) (mkWorld week1_dailies [])
     = (Raise (AttributeError "schema_spec"), mkWorld week1_dailies []).
Proof.
  split; [vm_compute; reflexivity |].
  split; [vm_compute; reflexivity |].
  split; [vm_compute; reflexivity |].
  split; [reflexivity |].
  vm_compute; reflexivity.
Qed.

(** A negative count does not keep files, it names how many to remove:
    with the count [keep < 0], [expire] returns normally and unlinks
    exactly the paths that match the mask and have fewer than [- keep]
    matching paths before them in name order (the oldest ones); every
    other path is left as it was. *)
Theorem expire_negative_count_removes_oldest
    E self days weeks months w pattern keep :
  expire_pattern E self = Ok pattern ->
  num_to_keep self days weeks months = Ok keep ->
  keep < 0 ->
  exists fs',
    expire E self days weeks months w = (Ok tt, mkWorld fs' (calls w))
    /\ (forall p,
          ~ (is_Some (files w !! p) /\ fnmatch E pattern p = true) ->
          fs' !! p = files w !! p)
    /\ (forall p earlier,
          is_Some (files w !! p) -> fnmatch E pattern p = true ->
          NoDup earlier ->
          (forall q, q ∈ earlier <->
                     is_Some (files w !! q) /\ fnmatch E pattern q = true
                     /\ Str.lt q p) ->
          fs' !! p = if decide (length earlier < Z.to_nat (- keep))%nat
                     then None else files w !! p).
Proof.
  intros Hp Hk Hneg.
  set (matched := sort_files (glob E (files w) pattern)).
  assert (Hslice : slice_to (- keep) matched
                   = take (Z.to_nat (- keep)) matched).
  { unfold slice_to. destruct (Z.ltb_spec (- keep) 0); [lia |].
    destruct (Z.min_spec (- keep) (Z.of_nat (length matched)))
      as [[_ ->] | [Hle ->]]; [reflexivity |].
    rewrite Nat2Z.id, firstn_all. symmetry. apply take_ge. lia. }
  destruct (expire_by_position E self days weeks months w pattern keep
              (Z.to_nat (- keep)) Hp Hk Hslice)
    as (fs' & Hrun & Hother & Hpos' & _).
  exists fs'. split; [exact Hrun |]. split; [exact Hother |].
  intros p earlier Hsome Hmatch Hnd Hearlier.
  destruct (Hpos' p Hsome Hmatch)
    as (l1 & l2 & _ & Hn1 & _ & Hl1 & _ & Hfs).
  rewrite Hfs.
  now rewrite (same_members_same_length earlier l1 _ Hnd Hn1 Hearlier Hl1).
Qed.

Lemma expire_negative_count_removes_oldest_witness :
  exists fs',
    expire sample_env sample_all_daily (PyStr "-2") (PyStr "0") (PyStr "0")
      (mkWorld week1_dailies [])
    = (Ok tt, mkWorld fs' [])
    /\ (forall p,
          ~ (is_Some (week1_dailies !! p)
             /\ fnmatch sample_env daily_mask p = true) ->
          fs' !! p = week1_dailies !! p)
    /\ (forall p earlier,
          is_Some (week1_dailies !! p) ->
          fnmatch sample_env daily_mask p = true ->
          NoDup earlier ->
          (forall q, q ∈ earlier <->
                     is_Some (week1_dailies !! q)
                     /\ fnmatch sample_env daily_mask q = true
                     /\ Str.lt q p) ->
          fs' !! p = if decide (length earlier < Z.to_nat (- -2))%nat
                     then None else week1_dailies !! p).
Proof.
  apply (expire_negative_count_removes_oldest sample_env sample_all_daily
           (PyStr "-2") (PyStr "0") (PyStr "0") (mkWorld week1_dailies [])
           daily_mask (-2)).
  - vm_compute; reflexivity.
  - reflexivity.
  - lia.
Defined.

(** ** Two promotions in one week *)









